(** * Network probes of image-check-agent: a shallow embedding

    The development follows the two source files:

    - [src/tools/image_tools.py]: the image reference resolver
      [_parse_image_name] and the registry manifest probe
      [_check_image_manifest_sync] / [check_image_pull];
    - [src/tools/common_tools.py]: the DNS codec [create_dns_query] and the
      probes [check_dns], [check_port], [check_http_response].

    Conventions of the embedding.

    - A Python [str] is a [string]; each [ascii] is one UTF-8 code unit of the
      text, so that [str.encode()] (UTF-8) is [list_byte_of_string].  Every
      operation the sources apply to a [str] ([split] on an ASCII separator,
      [in], [startswith], [endswith], slicing by the length of an ASCII
      prefix, concatenation, equality) acts on the code units exactly as it
      acts on the code points.  A [str] holding a lone surrogate, which
      [encode] rejects, has no representation.
    - Python [bytes] are [list byte]; Python [int]s are [Z].
    - [float] durations and clock readings are rationals ([Q]).
    - A Python exception is a value [exc]: its class and its [str(e)].
    - Code that talks to the outside (sockets, HTTP, clock, random numbers)
      runs in the monad [M]: a reader over the environment's answers [Env],
      a state of open sockets and issued requests [State], and exceptions. *)

From Stdlib Require Import ZArith QArith Qround String Ascii List Bool Lia DecimalString.
From Stdlib.Strings Require Import Byte.
From stdpp Require Import base gmap strings list.
Import ListNotations.
Open Scope string_scope.

(** ** Exceptions and the exception monad *)

(** The exception classes the sources raise, catch, or can receive from the
    libraries they call.  [SocketGaierror] and [SocketTimeout] are subclasses
    of [OSError]; [HTTPError] and [JSONDecodeError] (the one of [requests])
    are subclasses of [requests.exceptions.RequestException].  Exceptions
    outside [Exception], such as [KeyboardInterrupt], are not modelled. *)
Inductive exc_class : Type :=
| PlainException
| ValueError
| IndexError
| AttributeError
| OverflowError
| UnicodeError
| StructError
| OSError
| SocketTimeout
| SocketGaierror
| RequestException
| HTTPError
| JSONDecodeError.

Record exc : Type := Exc { exc_cls : exc_class; exc_str : string }.

(** [isinstance(e, requests.exceptions.RequestException)] *)
Definition is_RequestException (e : exc) : bool :=
  match exc_cls e with
  | RequestException | HTTPError | JSONDecodeError => true
  | _ => false
  end.

(** [isinstance(e, socket.gaierror)] *)
Definition is_gaierror (e : exc) : bool :=
  match exc_cls e with
  | SocketGaierror => true
  | _ => false
  end.

Inductive outcome (A : Type) : Type :=
| Returns (a : A)
| Raises (e : exc).
Arguments Returns {A} a.
Arguments Raises {A} e.

#[global] Instance outcome_ret : MRet outcome := fun A a => Returns a.
#[global] Instance outcome_bind : MBind outcome := fun A B f m =>
  match m with
  | Returns a => f a
  | Raises e => Raises e
  end.

(** ** Python string operations *)

Module PyStr.

(** [c in s] for a one-character [c] *)
Fixpoint has_char (c : ascii) (s : string) : bool :=
  match s with
  | EmptyString => false
  | String d r => Ascii.eqb d c || has_char c r
  end.

(** [s.split(sep)] for a one-character [sep] *)
Fixpoint split (sep : ascii) (s : string) : list string :=
  match s with
  | EmptyString => [EmptyString]
  | String c r =>
      if Ascii.eqb c sep then EmptyString :: split sep r
      else match split sep r with
           | h :: t => String c h :: t
           | [] => [String c EmptyString]
           end
  end.

(** [s.split(sep, maxsplit)] for a one-character [sep] *)
Fixpoint split_max (sep : ascii) (s : string) (maxsplit : nat) : list string :=
  match maxsplit with
  | O => [s]
  | S m =>
      match s with
      | EmptyString => [EmptyString]
      | String c r =>
          if Ascii.eqb c sep then EmptyString :: split_max sep r m
          else match split_max sep r maxsplit with
               | h :: t => String c h :: t
               | [] => [String c EmptyString]
               end
      end
  end.

(** [sep.join(l)] *)
Definition join (sep : string) (l : list string) : string := String.concat sep l.

(** [s.startswith(p)] *)
Definition startswith (p s : string) : bool := String.prefix p s.

(** [s[n:]] for [0 <= n] *)
Fixpoint drop (n : nat) (s : string) : string :=
  match n, s with
  | O, _ => s
  | S m, EmptyString => EmptyString
  | S m, String _ r => drop m r
  end.

(** [s.endswith(p)] *)
Definition endswith (p s : string) : bool :=
  (String.length p <=? String.length s)%nat
  && String.eqb (drop (String.length s - String.length p) s) p.

(** [sub in s] *)
Fixpoint contains (sub s : string) : bool :=
  String.prefix sub s
  || match s with
     | EmptyString => false
     | String _ r => contains sub r
     end.

(** [str(n)] for an [int] *)
Definition of_Z (n : Z) : string := NilZero.string_of_int (Z.to_int n).

(** [s.upper()] on the ASCII letters; other code units are kept, where
    Python maps the letters outside ASCII as well.  No character outside
    ASCII has an upper case among [G], [E], [T], so the test
    [method.upper() != 'GET'] is decided exactly; the method sent is the
    code's for methods written in ASCII. *)
Definition upper_char (c : ascii) : ascii :=
  let n := nat_of_ascii c in
  if ((97 <=? n) && (n <=? 122))%nat then ascii_of_nat (n - 32) else c.

Fixpoint upper (s : string) : string :=
  match s with
  | EmptyString => EmptyString
  | String c r => String (upper_char c) (upper r)
  end.

End PyStr.

(** Truth value of an [Optional[str]]: [None] and [''] are falsy. *)
Definition truthy_opt_str (o : option string) : bool :=
  match o with
  | Some s => negb (String.eqb s "")
  | None => false
  end.

(** [l[0]] *)
Definition index0 {A : Type} (l : list A) : outcome A :=
  match l with
  | x :: _ => Returns x
  | [] => Raises (Exc IndexError "list index out of range")
  end.

(** [a, b = l] *)
Definition unpack2 {A : Type} (l : list A) : outcome (A * A) :=
  match l with
  | [a; b] => Returns (a, b)
  | _ :: _ :: _ :: _ =>
      Raises (Exc ValueError "too many values to unpack (expected 2)")
  | _ =>
      Raises (Exc ValueError
                ("not enough values to unpack (expected 2, got "
                   ++ PyStr.of_Z (Z.of_nat (List.length l)) ++ ")"))
  end.

(** ** The image reference resolver ([src/tools/image_tools.py]) *)

Module ImageReference.
Record t : Type := {
  registry : string;
  repository : string;
  tag : string
}.
End ImageReference.

Definition default_registry : string := "registry-1.docker.io".

(** [_parse_image_name]: step 1 settles the registry and the image name left
    once a registry part is taken off, then the scheme prefix is removed,
    step 2 separates repository and tag, step 3 expands official Docker Hub
    names. *)
Definition _parse_image_name (image_name : string) (registry_override : option string)
  : outcome ImageReference.t :=
  '(registry, image_name) ←
    (if truthy_opt_str registry_override then
       Returns (default "" registry_override, image_name)
     else
       let parts := PyStr.split "/" image_name in
       p0 ← index0 parts;
       if PyStr.has_char "." p0 && (1 <? List.length parts)%nat then
         Returns (p0, PyStr.join "/" (List.tl parts))
       else if PyStr.has_char "." p0 && (List.length parts =? 1)%nat
                 && PyStr.has_char ":" p0 then
         Returns (p0, "")
       else
         Returns (default_registry, image_name));
  let registry :=
    if PyStr.startswith "https://" registry then
      PyStr.drop (String.length "https://") registry
    else if PyStr.startswith "http://" registry then
      PyStr.drop (String.length "http://") registry
    else registry in
  '(repository, tag) ←
    (if negb (PyStr.has_char ":" image_name) then Returns (image_name, "latest")
     else unpack2 (PyStr.split_max ":" image_name 1));
  let repository :=
    if String.eqb registry default_registry && negb (PyStr.has_char "/" repository)
    then "library/" ++ repository
    else repository in
  Returns {| ImageReference.registry := registry;
             ImageReference.repository := repository;
             ImageReference.tag := tag |}.


(** ** Bytes and [struct] *)

Module PyBytes.

(** [bs.split(sep)] for a one-byte [sep] *)
Fixpoint split (sep : byte) (bs : list byte) : list (list byte) :=
  match bs with
  | [] => [[]]
  | b :: r =>
      if Byte.eqb b sep then [] :: split sep r
      else match split sep r with
           | h :: t => (b :: h) :: t
           | [] => [[b]]
           end
  end.

(** [bytes([n])]: one byte holding [n], a [ValueError] above 255. *)
Definition of_len (n : nat) : outcome (list byte) :=
  match Byte.of_nat n with
  | Some b => Returns [b]
  | None => Raises (Exc ValueError "bytes must be in range(0, 256)")
  end.

End PyBytes.

Module Struct.

(** The low eight bits of [z] as a byte. *)
Definition low_byte (z : Z) : byte :=
  default x00 (Byte.of_N (Z.to_N (Z.land z 255))).

Definition Z_of_byte (b : byte) : Z := Z.of_N (Byte.to_N b).

(** The [struct.error] for a number that does not fit an ['!H'] field: a
    negative number fails the conversion to an unsigned integer, a number
    above 65535 the range test of the format. *)
Definition range_error (x : Z) : exc :=
  Exc StructError (if (x <? 0)%Z then "argument out of range"
                   else "'H' format requires 0 <= number <= 65535").

(** One ['!H'] field: unsigned, 16 bits, big-endian. *)
Definition pack_H (x : Z) : outcome (list byte) :=
  if (0 <=? x)%Z && (x <=? 65535)%Z then
    Returns [low_byte (Z.shiftr x 8); low_byte x]
  else Raises (range_error x).

(** [struct.pack('!H...H', *xs)] with one [H] per element of [xs]. *)
Fixpoint pack_Hs (xs : list Z) : outcome (list byte) :=
  match xs with
  | [] => Returns []
  | x :: r => hd ← pack_H x; tl ← pack_Hs r; Returns (hd ++ tl)%list
  end.

Definition unpack_H (hi lo : byte) : Z :=
  Z.lor (Z.shiftl (Z_of_byte hi) 8) (Z_of_byte lo).

(** [struct.unpack('!HHHHHH', bs)] *)
Definition unpack_6H (bs : list byte) : outcome (Z * Z * Z * Z * Z * Z) :=
  match bs with
  | [a1; a0; b1; b0; c1; c0; d1; d0; e1; e0; f1; f0] =>
      Returns (unpack_H a1 a0, unpack_H b1 b0, unpack_H c1 c0,
               unpack_H d1 d0, unpack_H e1 e0, unpack_H f1 f0)
  | _ => Raises (Exc StructError "unpack requires a buffer of 12 bytes")
  end.

End Struct.

(** ** The outside world *)

Inductive family : Type := AF_INET | AF_INET6.
Inductive socktype : Type := SOCK_STREAM | SOCK_DGRAM.

(** One entry of [socket.getaddrinfo]: [addr[0]] and [addr[4][0]]. *)
Record addrinfo : Type := { ai_family : family; ai_host : string }.

(** A Python value found in a decoded JSON object, as far as the sources
    observe it: [PyOther] stands for any value that is neither [None], a
    [bool], an [int] nor a [str], given by its truth value and its [str()]. *)
Inductive pyval : Type :=
| PyNone
| PyBool (b : bool)
| PyInt (n : Z)
| PyStr (s : string)
| PyOther (truth : bool) (text : string).

(** [bool(v)] *)
Definition py_truthy (v : pyval) : bool :=
  match v with
  | PyNone => false
  | PyBool b => b
  | PyInt n => negb (n =? 0)%Z
  | PyStr s => negb (String.eqb s "")
  | PyOther t _ => t
  end.

(** [str(v)], as an f-string renders [{v}] *)
Definition py_str (v : pyval) : string :=
  match v with
  | PyNone => "None"
  | PyBool true => "True"
  | PyBool false => "False"
  | PyInt n => PyStr.of_Z n
  | PyStr s => s
  | PyOther _ t => t
  end.

(** What [Response.json()] returns: a [dict], or a value of another type,
    known by its type name. *)
Inductive pyjson : Type :=
| JDict (d : gmap string pyval)
| JNotDict (type_name : string).

(** [obj.get(key)] *)
Definition json_get (obj : pyjson) (key : string) : outcome pyval :=
  match obj with
  | JDict d => Returns (default PyNone (d !! key))
  | JNotDict t =>
      Raises (Exc AttributeError ("'" ++ t ++ "' object has no attribute 'get'"))
  end.

(** A [requests.Response], by the attributes the sources read. *)
Record Response : Type := {
  resp_status_code : Z;
  resp_reason : string;
  resp_url : string;
  resp_json : outcome pyjson;
  resp_content : list byte
}.

(** [Response.raise_for_status()] of the [requests] library: an [HTTPError]
    for a status in 400..599, nothing otherwise. *)
Definition raise_for_status (r : Response) : outcome unit :=
  let status := resp_status_code r in
  if (400 <=? status)%Z && (status <? 500)%Z then
    Raises (Exc HTTPError (PyStr.of_Z status ++ " Client Error: " ++ resp_reason r
                             ++ " for url: " ++ resp_url r))
  else if (500 <=? status)%Z && (status <? 600)%Z then
    Raises (Exc HTTPError (PyStr.of_Z status ++ " Server Error: " ++ resp_reason r
                             ++ " for url: " ++ resp_url r))
  else Returns tt.

(** One call of [requests.get], [requests.head] or [requests.request]. *)
Record HttpRequest : Type := {
  req_method : string;
  req_url : string;
  req_headers : gmap string string;
  req_json : option (gmap string pyval);
  req_timeout : Q;
  req_verify : bool
}.

(** What the program did to the outside, in order. *)
Inductive event : Type :=
| EvSocket (fd : nat) (f : family) (t : socktype)
| EvSendto (fd : nat) (data : list byte) (host : string) (port : Z)
| EvRecvfrom (fd : nat) (data : list byte)
| EvConnect (fd : nat) (host : string) (port : Z)
| EvClose (fd : nat)
| EvGetaddrinfo (host : string)
| EvHttp (req : HttpRequest).

(** The environment's answers during one probe call. *)
Record Env : Type := {
  entropy : nat -> N;                       (* raw draws of the generator *)
  clock : nat -> Q;                         (* successive [time.time()] readings *)
  now_isoformat : string;                   (* [datetime.now().isoformat()] *)
  os_socket : family -> socktype -> option exc;
  os_sendto : list byte -> string -> Z -> option exc;
  os_recvfrom : outcome (list byte);
  os_connect_ex : string -> Z -> outcome Z;
  os_getaddrinfo : string -> outcome (list addrinfo);
  http : HttpRequest -> outcome Response
}.

Record State : Type := {
  open_sockets : list nat;
  next_fd : nat;
  clock_reads : nat;
  rng_reads : nat;
  trace : list event
}.

Definition log (ev : event) (st : State) : State :=
  {| open_sockets := open_sockets st; next_fd := next_fd st;
     clock_reads := clock_reads st; rng_reads := rng_reads st;
     trace := trace st ++ [ev] |}.

(** ** The probe monad *)

Definition M (A : Type) : Type := Env -> State -> outcome A * State.

#[global] Instance M_ret : MRet M := fun A a _ st => (Returns a, st).
#[global] Instance M_bind : MBind M := fun A B f m env st =>
  match m env st with
  | (Returns a, st') => f a env st'
  | (Raises e, st') => (Raises e, st')
  end.

(** [raise e] *)
Definition raise {A : Type} (e : exc) : M A := fun _ st => (Raises e, st).

(** A computation without effects, run inside a probe. *)
Definition lift {A : Type} (o : outcome A) : M A := fun _ st => (o, st).

(** [try: body  except Exception as e: handler e] *)
Definition try_except {A : Type} (body : M A) (handler : exc -> M A) : M A :=
  fun env st =>
    match body env st with
    | (Returns a, st') => (Returns a, st')
    | (Raises e, st') => handler e env st'
    end.

(** [try: body  except <class> as e: handler e], other classes propagate. *)
Definition try_except_only {A : Type} (catches : exc -> bool)
    (body : M A) (handler : exc -> M A) : M A :=
  try_except body (fun e => if catches e then handler e else raise e).

(** *** Primitives of the outside world *)

Definition set_sockets (socks : list nat) (st : State) : State :=
  {| open_sockets := socks; next_fd := next_fd st;
     clock_reads := clock_reads st; rng_reads := rng_reads st;
     trace := trace st |}.

(** [random.randint(a, b)]: some integer of [a..b], fixed by the next draw. *)
Definition random_randint (a b : Z) : M Z := fun env st =>
  (Returns (a + Z.of_N (entropy env (rng_reads st)) mod (b - a + 1))%Z,
   {| open_sockets := open_sockets st; next_fd := next_fd st;
      clock_reads := clock_reads st; rng_reads := S (rng_reads st);
      trace := trace st |}).

(** [time.time()] *)
Definition time_time : M Q := fun env st =>
  (Returns (clock env (clock_reads st)),
   {| open_sockets := open_sockets st; next_fd := next_fd st;
      clock_reads := S (clock_reads st); rng_reads := rng_reads st;
      trace := trace st |}).

(** [datetime.now().isoformat()] *)
Definition datetime_now_isoformat : M string := fun env st =>
  (Returns (now_isoformat env), st).

(** [socket.socket(f, t)]: a fresh open socket, or the system's refusal. *)
Definition socket_socket (f : family) (t : socktype) : M nat := fun env st =>
  match os_socket env f t with
  | Some e => (Raises e, st)
  | None =>
      let fd := next_fd st in
      (Returns fd,
       log (EvSocket fd f t)
         {| open_sockets := fd :: open_sockets st; next_fd := S fd;
            clock_reads := clock_reads st; rng_reads := rng_reads st;
            trace := trace st |})
  end.

(** The timeout of [sock.settimeout(v)] in nanoseconds, rounded away from
    zero, as CPython converts it to its 64-bit time type. *)
Definition timeout_ns (v : Q) : Z :=
  let ns := (v * 1000000000)%Q in
  if Qle_bool 0 ns then Qceiling ns else Qfloor ns.

(** [sock.settimeout(v)]: a number of nanoseconds outside the 64-bit range
    is an [OverflowError], a negative one inside it a [ValueError]. *)
Definition settimeout (fd : nat) (v : Q) : M unit :=
  let ns := timeout_ns v in
  if (ns <? - 2 ^ 63)%Z || (2 ^ 63 <=? ns)%Z then
    raise (Exc OverflowError "timestamp too large to convert to C _PyTime_t")
  else if (ns <? 0)%Z then
    raise (Exc ValueError "Timeout value out of range")
  else mret tt.

(** [sock.sendto(data, (host, port))] *)
Definition sendto (fd : nat) (data : list byte) (host : string) (port : Z) : M unit :=
  fun env st =>
    match os_sendto env data host port with
    | Some e => (Raises e, st)
    | None => (Returns tt, log (EvSendto fd data host port) st)
    end.

(** [sock.recvfrom(bufsize)], without the sender's address, which the
    sources discard. *)
Definition recvfrom (fd : nat) (bufsize : nat) : M (list byte) := fun env st =>
  match os_recvfrom env with
  | Raises e => (Raises e, st)
  | Returns data =>
      let data := take bufsize data in
      (Returns data, log (EvRecvfrom fd data) st)
  end.

(** [sock.connect_ex((host, port))] *)
Definition connect_ex (fd : nat) (host : string) (port : Z) : M Z := fun env st =>
  match os_connect_ex env host port with
  | Raises e => (Raises e, st)
  | Returns code => (Returns code, log (EvConnect fd host port) st)
  end.

(** [sock.close()] *)
Definition sock_close (fd : nat) : M unit := fun env st =>
  (Returns tt,
   log (EvClose fd) (set_sockets (List.filter (fun s => negb (s =? fd)%nat) (open_sockets st)) st)).

(** [socket.getaddrinfo(host, None)] *)
Definition getaddrinfo (host : string) : M (list addrinfo) := fun env st =>
  (os_getaddrinfo env host, log (EvGetaddrinfo host) st).

(** One HTTP exchange through the [requests] library. *)
Definition requests_request (req : HttpRequest) : M Response := fun env st =>
  (http env req, log (EvHttp req) st).

(** [round(x, 2)] on the rational model of [float]: the nearest hundredth,
    a tie going to the even one.  The code rounds the binary value of the
    float, which can fall on the other side of a tie than the rational it
    stands for; the hundredths digit of a timing is then the model's and
    not the code's, its sign and its presence are both's. *)
Definition round_half_even (q : Q) : Z :=
  let f := Qfloor q in
  match Qcompare (q - inject_Z f) (1 # 2) with
  | Lt => f
  | Gt => (f + 1)%Z
  | Eq => if Z.even f then f else (f + 1)%Z
  end.

Definition round2 (q : Q) : Q := Qmake (round_half_even (q * 100)) 100.

(** ** The DNS codec ([src/tools/common_tools.py]) *)

(** The loop [for part in ...: qname += bytes([len(part)]) + part]. *)
Fixpoint qname_loop (parts : list (list byte)) (qname : list byte) : outcome (list byte) :=
  match parts with
  | [] => Returns qname
  | part :: rest =>
      len ← PyBytes.of_len (List.length part);
      qname_loop rest (qname ++ (len ++ part))%list
  end.

Definition create_dns_query (domain : string) (record_type : Z) : M (list byte) :=
  transaction_id ← random_randint 0 65535;
  let flags := 0x0100%Z in
  let qdcount := 1%Z in
  let ancount := 0%Z in
  let nscount := 0%Z in
  let arcount := 0%Z in
  header ← lift (Struct.pack_Hs
                   [transaction_id; flags; qdcount; ancount; nscount; arcount]);
  qname ← lift (qname_loop (PyBytes.split "."%byte (list_byte_of_string domain)) []);
  let qname := (qname ++ [x00])%list in
  question ← lift (Struct.pack_Hs [record_type; 1%Z]);
  mret (header ++ qname ++ question)%list.

(** ** The DNS probe *)

Module DNSCheckInput.
Record t : Type := {
  domain : string;
  record_type : string;
  nameserver : string
}.
End DNSCheckInput.

Module DnsResult.
Record t : Type := {
  success : bool;
  domain : string;
  record_type : string;
  records : list string;
  response_time_ms : option Q;
  timestamp : string;
  error : option string
}.
End DnsResult.

Definition record_types : gmap string Z :=
  <["A" := 1%Z]> (<["AAAA" := 28%Z]> (<["MX" := 15%Z]> (<["CNAME" := 5%Z]> ∅))).

Definition family_eqb (a b : family) : bool :=
  match a, b with
  | AF_INET, AF_INET | AF_INET6, AF_INET6 => true
  | _, _ => false
  end.

(** The test of the loop over [addrs]. *)
Definition wanted_family (record_type : string) (addr : addrinfo) : bool :=
  (String.eqb record_type "A" && family_eqb (ai_family addr) AF_INET)
  || (String.eqb record_type "AAAA" && family_eqb (ai_family addr) AF_INET6).

(** [list(set(records))]; Python leaves the order of the result open, the
    model keeps the last occurrence of each record. *)
Definition dedup (records : list string) : list string := remove_dups records.

Definition check_dns (input_data : DNSCheckInput.t) : M DnsResult.t :=
  let domain := DNSCheckInput.domain input_data in
  let record_type := DNSCheckInput.record_type input_data in
  let nameserver := DNSCheckInput.nameserver input_data in
  match record_types !! record_type with
  | None =>
      ts ← datetime_now_isoformat;
      mret {| DnsResult.success := false;
              DnsResult.domain := domain;
              DnsResult.record_type := record_type;
              DnsResult.records := [];
              DnsResult.response_time_ms := None;
              DnsResult.timestamp := ts;
              DnsResult.error := Some ("Unsupported record type: " ++ record_type) |}
  | Some qtype =>
      try_except
        (sock ← socket_socket AF_INET SOCK_DGRAM;
         _ ← settimeout sock 3;
         query ← create_dns_query domain qtype;
         start_time ← time_time;
         _ ← sendto sock query nameserver 53;
         response ← recvfrom sock 512;
         end_time ← time_time;
         let response_time := ((end_time - start_time) * 1000)%Q in
         _ ← sock_close sock;
         _ ← (if (List.length response <? 12)%nat
              then raise (Exc PlainException "Response too short")
              else mret tt);
         '(_, flags, _, ancount, _, _) ← lift (Struct.unpack_6H (take 12 response));
         let rcode := Z.land flags 0x000F in
         _ ← (if negb (rcode =? 0)%Z
              then raise (Exc PlainException ("DNS response code: " ++ PyStr.of_Z rcode))
              else mret tt);
         records ← (if (ancount >? 0)%Z then
                      try_except_only is_gaierror
                        (addrs ← getaddrinfo domain;
                         mret (map ai_host (List.filter (wanted_family record_type) addrs)))
                        (fun _ => mret [])
                    else mret []);
         ts ← datetime_now_isoformat;
         mret {| DnsResult.success := true;
                 DnsResult.domain := domain;
                 DnsResult.record_type := record_type;
                 DnsResult.records := dedup records;
                 DnsResult.response_time_ms := Some (round2 response_time);
                 DnsResult.timestamp := ts;
                 DnsResult.error := None |})
        (fun e =>
           ts ← datetime_now_isoformat;
           mret {| DnsResult.success := false;
                   DnsResult.domain := domain;
                   DnsResult.record_type := record_type;
                   DnsResult.records := [];
                   DnsResult.response_time_ms := None;
                   DnsResult.timestamp := ts;
                   DnsResult.error := Some (exc_str e) |})
  end.

(** ** The TCP port probe *)

Module PortCheckInput.
Record t : Type := {
  host : string;
  port : Z;
  timeout : Q
}.
End PortCheckInput.

Module PortResult.
Record t : Type := {
  success : bool;
  host : string;
  port : Z;
  response_time_ms : option Q;
  timestamp : string;
  error : option string
}.
End PortResult.

Definition check_port (input_data : PortCheckInput.t) : M PortResult.t :=
  let host := PortCheckInput.host input_data in
  let port := PortCheckInput.port input_data in
  let timeout := PortCheckInput.timeout input_data in
  try_except
    (start_time ← time_time;
     sock ← socket_socket AF_INET SOCK_STREAM;
     _ ← settimeout sock timeout;
     result ← connect_ex sock host port;
     end_time ← time_time;
     let response_time := ((end_time - start_time) * 1000)%Q in
     _ ← sock_close sock;
     ts ← datetime_now_isoformat;
     mret {| PortResult.success := (result =? 0)%Z;
             PortResult.host := host;
             PortResult.port := port;
             PortResult.response_time_ms := Some (round2 response_time);
             PortResult.timestamp := ts;
             PortResult.error :=
               if (result =? 0)%Z then None
               else Some ("Port " ++ PyStr.of_Z port ++ " is closed") |})
    (fun e =>
       ts ← datetime_now_isoformat;
       mret {| PortResult.success := false;
               PortResult.host := host;
               PortResult.port := port;
               PortResult.response_time_ms := None;
               PortResult.timestamp := ts;
               PortResult.error := Some (exc_str e) |}).

(** ** The HTTP probe *)

Module HTTPCheckInput.
Record t : Type := {
  url : string;
  method : string;
  headers : option (gmap string string);
  data : option (gmap string pyval);
  timeout : Q;
  verify_ssl : bool
}.
End HTTPCheckInput.

Module HttpResult.
Record t : Type := {
  success : bool;
  url : string;
  status_code : option Z;
  response_time_ms : option Q;
  content_length : option nat;
  timestamp : string;
  error : option string
}.
End HttpResult.

(** The request [check_http_response] hands to [requests.request]:
    [headers or {}] is the given mapping or the empty one, and the payload
    goes out as JSON unless the upper-cased method is [GET]. *)
Definition http_check_request (input_data : HTTPCheckInput.t) : HttpRequest :=
  let method := HTTPCheckInput.method input_data in
  {| req_method := PyStr.upper method;
     req_url := HTTPCheckInput.url input_data;
     req_headers := default ∅ (HTTPCheckInput.headers input_data);
     req_json := if negb (String.eqb (PyStr.upper method) "GET")
                 then HTTPCheckInput.data input_data else None;
     req_timeout := HTTPCheckInput.timeout input_data;
     req_verify := HTTPCheckInput.verify_ssl input_data |}.

Definition check_http_response (input_data : HTTPCheckInput.t) : M HttpResult.t :=
  let url := HTTPCheckInput.url input_data in
  try_except
    (start_time ← time_time;
     response ← requests_request (http_check_request input_data);
     end_time ← time_time;
     let response_time := ((end_time - start_time) * 1000)%Q in
     ts ← datetime_now_isoformat;
     mret {| HttpResult.success := true;
             HttpResult.url := url;
             HttpResult.status_code := Some (resp_status_code response);
             HttpResult.response_time_ms := Some (round2 response_time);
             HttpResult.content_length := Some (List.length (resp_content response));
             HttpResult.timestamp := ts;
             HttpResult.error := None |})
    (fun e =>
       ts ← datetime_now_isoformat;
       mret {| HttpResult.success := false;
               HttpResult.url := url;
               HttpResult.status_code := None;
               HttpResult.response_time_ms := None;
               HttpResult.content_length := None;
               HttpResult.timestamp := ts;
               HttpResult.error := Some (exc_str e) |}).

(** ** The registry manifest probe ([src/tools/image_tools.py]) *)

Module ImageCheckInput.
Record t : Type := {
  image_name : string;
  registry : option string;
  timeout : Q
}.
End ImageCheckInput.

Module ManifestResult.
Record t : Type := {
  success : bool;
  image_name : string;
  registry : string;
  response_time_ms : Q;
  timestamp : string;
  error : option string;
  status_code : option Z;
  message : string
}.
End ManifestResult.

Definition is_docker_hub_or_mirror (registry_host : string) : bool :=
  String.eqb registry_host "registry-1.docker.io"
  || PyStr.endswith "docker.io" registry_host
  || PyStr.contains "daocloud.io" registry_host.

Definition token_url (repository : string) : string :=
  "https://auth.docker.io/token?service=registry.docker.io&scope=repository:"
    ++ repository ++ ":pull".

Definition manifest_url (registry_host repository tag : string) : string :=
  "https://" ++ registry_host ++ "/v2/" ++ repository ++ "/manifests/" ++ tag.

Definition accept_header : string :=
  "application/vnd.docker.distribution.manifest.v2+json, application/vnd.docker.distribution.manifest.list.v2+json, application/json".

(** The call [requests.get(url, timeout=timeout)] *)
Definition get_request (url : string) (timeout : Q) : HttpRequest :=
  {| req_method := "GET"; req_url := url; req_headers := ∅;
     req_json := None; req_timeout := timeout; req_verify := true |}.

Definition requests_get (url : string) (timeout : Q) : M Response :=
  requests_request (get_request url timeout).

(** The call [requests.head(url, headers=headers, timeout=timeout)] *)
Definition head_request (url : string) (headers : gmap string string) (timeout : Q)
  : HttpRequest :=
  {| req_method := "HEAD"; req_url := url; req_headers := headers;
     req_json := None; req_timeout := timeout; req_verify := true |}.

Definition requests_head (url : string) (headers : gmap string string) (timeout : Q)
  : M Response :=
  requests_request (head_request url headers timeout).

(** The headers of the manifest request: [Accept], and [Authorization] when
    the token is truthy. *)
Definition manifest_headers (token : pyval) : gmap string string :=
  let headers : gmap string string := {[ "Accept" := accept_header ]} in
  if py_truthy token then <["Authorization" := "Bearer " ++ py_str token]> headers
  else headers.

(** The result of [_check_image_manifest_sync] is [None] where the Python
    function runs off its end without a [return]. *)
Definition _check_image_manifest_sync
    (image_name : string) (registry : option string) (timeout : Q)
  : M (option ManifestResult.t) :=
  parsed ← lift (_parse_image_name image_name registry);
  let registry_host := ImageReference.registry parsed in
  let repository := ImageReference.repository parsed in
  let tag := ImageReference.tag parsed in
  let hub := is_docker_hub_or_mirror registry_host in
  start_time ← time_time;
  let failure (prefix : string) (e : exc) : M (option ManifestResult.t) :=
    end_time ← time_time;
    let response_time := ((end_time - start_time) * 1000)%Q in
    ts ← datetime_now_isoformat;
    mret (Some {| ManifestResult.success := false;
                  ManifestResult.image_name := image_name;
                  ManifestResult.registry := registry_host;
                  ManifestResult.response_time_ms := round2 response_time;
                  ManifestResult.timestamp := ts;
                  ManifestResult.error := Some (prefix ++ exc_str e);
                  ManifestResult.status_code := None;
                  ManifestResult.message := exc_str e |}) in
  try_except
    (token ← (if hub then
                token_response ← requests_get (token_url repository) timeout;
                _ ← lift (raise_for_status token_response);
                body ← lift (resp_json token_response);
                lift (json_get body "token")
              else mret PyNone);
     manifest_response ← requests_head (manifest_url registry_host repository tag)
                           (manifest_headers token) timeout;
     end_time ← time_time;
     let response_time := ((end_time - start_time) * 1000)%Q in
     let status := resp_status_code manifest_response in
     if (status =? 200)%Z then
       ts ← datetime_now_isoformat;
       mret (Some {| ManifestResult.success := true;
                     ManifestResult.image_name := image_name;
                     ManifestResult.registry := registry_host;
                     ManifestResult.response_time_ms := round2 response_time;
                     ManifestResult.timestamp := ts;
                     ManifestResult.error := None;
                     ManifestResult.status_code := Some status;
                     ManifestResult.message :=
                       "Image manifest found (Status: " ++ PyStr.of_Z status ++ ")" |})
     else if (status =? 404)%Z then
       ts ← datetime_now_isoformat;
       mret (Some {| ManifestResult.success := false;
                     ManifestResult.image_name := image_name;
                     ManifestResult.registry := registry_host;
                     ManifestResult.response_time_ms := round2 response_time;
                     ManifestResult.timestamp := ts;
                     ManifestResult.error :=
                       Some ("Image manifest not found (Status: "
                               ++ PyStr.of_Z status ++ ")");
                     ManifestResult.status_code := Some status;
                     ManifestResult.message :=
                       "Image manifest not found (Status: " ++ PyStr.of_Z status ++ ")" |})
     else
       _ ← lift (raise_for_status manifest_response);
       mret None)
    (fun e =>
       if is_RequestException e then failure "HTTP Request Error: " e
       else failure "An unexpected error occurred: " e).

(** [check_image_pull] runs [_check_image_manifest_sync] on a worker thread
    and awaits its result. *)
Definition check_image_pull (input_data : ImageCheckInput.t)
  : M (option ManifestResult.t) :=
  _check_image_manifest_sync
    (ImageCheckInput.image_name input_data)
    (ImageCheckInput.registry input_data)
    (ImageCheckInput.timeout input_data).

(** The two requests of the probe, named for the statements below: the
    token request and the manifest request made with a given token value. *)
Definition token_request (ref : ImageReference.t) (timeout : Q) : HttpRequest :=
  get_request (token_url (ImageReference.repository ref)) timeout.

Definition manifest_request (ref : ImageReference.t) (token : pyval) (timeout : Q)
  : HttpRequest :=
  head_request
    (manifest_url (ImageReference.registry ref) (ImageReference.repository ref)
       (ImageReference.tag ref))
    (manifest_headers token) timeout.

(** ** The query datagram in the words of the specification *)

Module WireSpec.

Definition byte_of_Z (z : Z) : byte := default x00 (Byte.of_N (Z.to_N z)).

(** A 16-bit field, most significant byte first. *)
Definition u16_be (n : Z) : list byte := [byte_of_Z (n / 256); byte_of_Z (n mod 256)].

(** One label: a length byte, then the label's raw bytes. *)
Definition label (l : string) : list byte :=
  default x00 (Byte.of_nat (String.length l)) :: list_byte_of_string l.

(** The labels of the domain, each length-prefixed, then a zero byte. *)
Definition qname (domain : string) : list byte :=
  (concat (map label (PyStr.split "." domain)) ++ [x00])%list.

(** Header of six fields, question name, record type, class 1. *)
Definition query (transaction_id : Z) (domain : string) (qtype : Z) : list byte :=
  (u16_be transaction_id ++ u16_be 0x0100 ++ u16_be 1
     ++ u16_be 0 ++ u16_be 0 ++ u16_be 0
     ++ qname domain ++ u16_be qtype ++ u16_be 1)%list.

End WireSpec.

(** The events a run added to the trace. *)
Definition issued (st st' : State) : list event :=
  drop (List.length (trace st)) (trace st').

(** ** Sample environments *)

Module Samples.

(** Nothing answers: the socket opens, the datagram leaves, no reply comes
    before the timeout, and every HTTP exchange fails to connect. *)
Definition silent : Env :=
  {| entropy := fun _ => 70000%N;
     clock := fun n => inject_Z (Z.of_nat n);
     now_isoformat := "2025-01-01T00:00:00";
     os_socket := fun _ _ => None;
     os_sendto := fun _ _ _ => None;
     os_recvfrom := Raises (Exc SocketTimeout "timed out");
     os_connect_ex := fun _ _ =>
       Raises (Exc SocketGaierror "[Errno -2] Name or service not known");
     os_getaddrinfo := fun _ =>
       Raises (Exc SocketGaierror "[Errno -2] Name or service not known");
     http := fun _ => Raises (Exc RequestException "Connection refused") |}.

Definition with_reply (reply : list byte) (env : Env) : Env :=
  {| entropy := entropy env; clock := clock env;
     now_isoformat := now_isoformat env;
     os_socket := os_socket env; os_sendto := os_sendto env;
     os_recvfrom := Returns reply;
     os_connect_ex := os_connect_ex env;
     os_getaddrinfo := os_getaddrinfo env; http := http env |}.

Definition with_http (h : HttpRequest -> outcome Response) (env : Env) : Env :=
  {| entropy := entropy env; clock := clock env;
     now_isoformat := now_isoformat env;
     os_socket := os_socket env; os_sendto := os_sendto env;
     os_recvfrom := os_recvfrom env;
     os_connect_ex := os_connect_ex env;
     os_getaddrinfo := os_getaddrinfo env; http := h |}.

Definition fresh : State :=
  {| open_sockets := []; next_fd := 3; clock_reads := 0; rng_reads := 0;
     trace := [] |}.

Definition response (status : Z) (reason : string) (body : outcome pyjson) : Response :=
  {| resp_status_code := status; resp_reason := reason;
     resp_url := "https://example.invalid/"; resp_json := body;
     resp_content := [] |}.

Definition no_json : outcome pyjson :=
  Raises (Exc JSONDecodeError "Expecting value: line 1 column 1 (char 0)").

(** A label of 256 bytes. *)
Definition long_label : string := string_of_list_ascii (repeat "a"%char 256).

Definition dns_input (domain record_type : string) : DNSCheckInput.t :=
  {| DNSCheckInput.domain := domain;
     DNSCheckInput.record_type := record_type;
     DNSCheckInput.nameserver := "8.8.8.8" |}.

Definition http_input (url method : string) : HTTPCheckInput.t :=
  {| HTTPCheckInput.url := url;
     HTTPCheckInput.method := method;
     HTTPCheckInput.headers := None;
     HTTPCheckInput.data := None;
     HTTPCheckInput.timeout := 10;
     HTTPCheckInput.verify_ssl := true |}.

(** A world in which the token endpoint (reached by GET) and the registry
    (reached by HEAD) give fixed answers. *)
Definition registry_world (token manifest : outcome Response) : Env :=
  with_http (fun req => if String.eqb (req_method req) "GET" then token else manifest)
            silent.

Definition token_body (fields : list (string * pyval)) : outcome pyjson :=
  Returns (JDict (list_to_map fields)).

End Samples.

(** ** Observations of a run *)

(** The datagrams a run sent, with their destinations. *)
Fixpoint datagrams_sent (tr : list event) : list (list byte * string * Z) :=
  match tr with
  | [] => []
  | EvSendto _ data host port :: rest => (data, host, port) :: datagrams_sent rest
  | _ :: rest => datagrams_sent rest
  end.

(** The connection attempts of a run. *)
Fixpoint connections_tried (tr : list event) : list (string * Z) :=
  match tr with
  | [] => []
  | EvConnect _ host port :: rest => (host, port) :: connections_tried rest
  | _ :: rest => connections_tried rest
  end.

(** Descriptors are handed out in increasing order: the open ones lie below
    the next one. *)
Definition fresh_next_fd (st : State) : Prop :=
  Forall (fun fd => fd < next_fd st) (open_sockets st).

Module MoreSamples.

(** A reply header with response code 0 and one answer. *)
Definition one_answer : list byte :=
  ["017"; "p"; "129"; "128"; "000"; "001"; "000"; "001";
   "000"; "000"; "000"; "000"]%byte.

(** A resolver that answers, and a host with two IPv4 entries of one
    address and one IPv6 entry. *)
Definition dual_stack : Env :=
  {| entropy := entropy Samples.silent; clock := clock Samples.silent;
     now_isoformat := now_isoformat Samples.silent;
     os_socket := os_socket Samples.silent;
     os_sendto := os_sendto Samples.silent;
     os_recvfrom := Returns one_answer;
     os_connect_ex := fun _ _ => Returns 0%Z;
     os_getaddrinfo := fun _ =>
       Returns [ {| ai_family := AF_INET; ai_host := "93.184.216.34" |};
                 {| ai_family := AF_INET; ai_host := "93.184.216.34" |};
                 {| ai_family := AF_INET6;
                    ai_host := "2606:2800:220:1:248:1893:25c8:1946" |} ];
     http := http Samples.silent |}.

(** A host that refuses the connection: [connect_ex] returns ECONNREFUSED. *)
Definition refusing : Env :=
  {| entropy := entropy Samples.silent; clock := clock Samples.silent;
     now_isoformat := now_isoformat Samples.silent;
     os_socket := os_socket Samples.silent;
     os_sendto := os_sendto Samples.silent;
     os_recvfrom := os_recvfrom Samples.silent;
     os_connect_ex := fun _ _ => Returns 111%Z;
     os_getaddrinfo := os_getaddrinfo Samples.silent;
     http := http Samples.silent |}.

(** A resolver that answers with one answer, and a lookup that fails on the
    name itself: [getaddrinfo] raises the [UnicodeError] of the name
    encoding, which is no [gaierror]. *)
Definition idna_failure : Env :=
  {| entropy := entropy Samples.silent; clock := clock Samples.silent;
     now_isoformat := now_isoformat Samples.silent;
     os_socket := os_socket Samples.silent;
     os_sendto := os_sendto Samples.silent;
     os_recvfrom := Returns one_answer;
     os_connect_ex := os_connect_ex Samples.silent;
     os_getaddrinfo := fun _ =>
       Raises (Exc UnicodeError
                 "encoding with 'idna' codec failed (UnicodeError: label empty or too long)");
     http := http Samples.silent |}.

End MoreSamples.

(** * Properties *)

(** ** Strings *)

Lemma split_not_nil sep s : PyStr.split sep s <> [].
Proof.
  destruct s as [|c r]; simpl; [discriminate|].
  destruct (Ascii.eqb c sep); [discriminate|].
  destruct (PyStr.split sep r); discriminate.
Qed.

Lemma split_max_one sep s :
  PyStr.has_char sep s = true -> exists a b, PyStr.split_max sep s 1 = [a; b].
Proof.
  induction s as [|c r IH]; simpl; [discriminate|].
  destruct (Ascii.eqb c sep) eqn:E; simpl.
  - intros _. destruct r; eauto.
  - intros H. destruct (IH H) as (a & b & Hab).
    simpl in Hab. rewrite Hab. eauto.
Qed.

(** A string without the separator is its own single piece. *)
Lemma split_no_sep sep s : PyStr.has_char sep s = false -> PyStr.split sep s = [s].
Proof.
  induction s as [|c r IH]; simpl; [reflexivity|].
  destruct (Ascii.eqb c sep); simpl; [discriminate|].
  intros H. now rewrite (IH H).
Qed.

(** The first piece of a split holds no separator. *)
Lemma split_head_no_sep sep s p rest :
  PyStr.split sep s = p :: rest -> PyStr.has_char sep p = false.
Proof.
  revert p rest. induction s as [|c r IH]; simpl; intros p rest H.
  - injection H as <- _. reflexivity.
  - destruct (Ascii.eqb c sep) eqn:E.
    + injection H as <- _. reflexivity.
    + destruct (PyStr.split sep r) as [|h t] eqn:Hr.
      * injection H as <- _. simpl. now rewrite E.
      * injection H as <- _. simpl. rewrite E. simpl. eapply IH. reflexivity.
Qed.

(** A string holds every character of its prefixes. *)
Lemma startswith_has_char c p s :
  PyStr.startswith p s = true -> PyStr.has_char c p = true ->
  PyStr.has_char c s = true.
Proof.
  unfold PyStr.startswith. revert s.
  induction p as [|a p IH]; intros s Hp Hc; [discriminate|].
  destruct s as [|b s]; [discriminate|].
  simpl in Hp, Hc |- *.
  destruct (ascii_dec a b) as [->|]; [|discriminate].
  destruct (Ascii.eqb b c); [reflexivity|]. simpl in *. eauto.
Qed.

(** ** The image reference resolver *)

(** C1. The resolver, without an override, maps "hello-world" and
    "myregistry.com/myimage:v2" as the specification lists them, but takes
    "nginx:1.25" (one segment holding both a dot and a colon) for a bare
    registry: the registry is the whole string, the repository is empty and
    the tag is "latest". *)
Theorem parse_image_name_examples :
  _parse_image_name "hello-world" None
    = Returns {| ImageReference.registry := "registry-1.docker.io";
                 ImageReference.repository := "library/hello-world";
                 ImageReference.tag := "latest" |}
  /\ _parse_image_name "myregistry.com/myimage:v2" None
    = Returns {| ImageReference.registry := "myregistry.com";
                 ImageReference.repository := "myimage";
                 ImageReference.tag := "v2" |}
  /\ _parse_image_name "nginx:1.25" None
    = Returns {| ImageReference.registry := "nginx:1.25";
                 ImageReference.repository := "";
                 ImageReference.tag := "latest" |}.
Proof. repeat split; reflexivity. Qed.

(** The same name with a tag that has no dot resolves to Docker Hub. *)
Example parse_image_name_undotted_tag :
  _parse_image_name "nginx:latest" None
    = Returns {| ImageReference.registry := "registry-1.docker.io";
                 ImageReference.repository := "library/nginx";
                 ImageReference.tag := "latest" |}.
Proof. reflexivity. Qed.

(** Every name of one segment that holds a dot and a colon, such as a name
    with a dotted tag, is taken whole for the registry. *)
Lemma parse_image_name_dotted_single_segment name :
  PyStr.has_char "/" name = false ->
  PyStr.has_char "." name = true ->
  PyStr.has_char ":" name = true ->
  _parse_image_name name None
  = Returns {| ImageReference.registry := name;
               ImageReference.repository := "";
               ImageReference.tag := "latest" |}.
Proof.
  intros Hslash Hdot Hcolon.
  assert (Hhttps : PyStr.startswith "https://" name = false).
  { apply not_true_iff_false. intros Hp.
    apply (startswith_has_char "/") in Hp; [congruence|reflexivity]. }
  assert (Hhttp : PyStr.startswith "http://" name = false).
  { apply not_true_iff_false. intros Hp.
    apply (startswith_has_char "/") in Hp; [congruence|reflexivity]. }
  assert (Hhub : String.eqb name default_registry = false).
  { apply String.eqb_neq. intros ->. discriminate Hcolon. }
  unfold _parse_image_name. cbn [truthy_opt_str].
  rewrite (split_no_sep _ _ Hslash). cbn [index0 mbind outcome_bind List.length].
  rewrite Hdot, Hcolon. cbn. rewrite Hhttps, Hhttp, Hhub. reflexivity.
Qed.

(** C7. With the override "https://https://registry.example.com" the
    resolver removes one scheme prefix only: the registry it returns still
    starts with "https://". *)
Theorem parse_image_name_keeps_second_scheme :
  exists ref,
    _parse_image_name "nginx" (Some "https://https://registry.example.com")
      = Returns ref
    /\ ImageReference.registry ref = "https://registry.example.com"
    /\ PyStr.startswith "https://" (ImageReference.registry ref) = true.
Proof. eexists. repeat split. Qed.

(** The scheme removal of [_parse_image_name], applied to a registry. *)
Lemma parse_image_name_registry image_name registry_override ref :
  _parse_image_name image_name registry_override = Returns ref ->
  exists raw,
    ImageReference.registry ref
    = (if PyStr.startswith "https://" raw then PyStr.drop 8 raw
       else if PyStr.startswith "http://" raw then PyStr.drop 7 raw
       else raw)
    /\ (registry_override = Some raw
        \/ raw = default_registry
        \/ exists rest, PyStr.split "/" image_name = raw :: rest).
Proof.
  unfold _parse_image_name.
  assert (Hsecond : forall (raw name : string) T,
    ('(repository, tag) ← (T : outcome (string * string));
       let reg' :=
         if PyStr.startswith "https://" raw then PyStr.drop (String.length "https://") raw
         else if PyStr.startswith "http://" raw then PyStr.drop (String.length "http://") raw
         else raw in
       let repository :=
         if String.eqb reg' default_registry && negb (PyStr.has_char "/" repository)
         then "library/" ++ repository else repository in
       Returns {| ImageReference.registry := reg';
                  ImageReference.repository := repository;
                  ImageReference.tag := tag |}) = Returns ref ->
    ImageReference.registry ref
    = (if PyStr.startswith "https://" raw then PyStr.drop 8 raw
       else if PyStr.startswith "http://" raw then PyStr.drop 7 raw
       else raw)).
  { intros raw name [[repo tg]|e]; cbn; [|discriminate]. now intros [= <-]. }
  destruct registry_override as [raw|]; cbn [truthy_opt_str].
  - destruct (negb (String.eqb raw "")); cbn [mbind outcome_bind default].
    + intros H. exists raw. split; [eapply (Hsecond raw image_name), H|auto].
    + destruct (PyStr.split "/" image_name) as [|p0 rest] eqn:Hs;
        [now apply split_not_nil in Hs|].
      cbn [index0 mbind outcome_bind].
      destruct (_ && _); [|destruct (_ && _)]; intros H.
      * exists p0. split; [eapply (Hsecond p0 ""), H|eauto].
      * exists p0. split; [eapply (Hsecond p0 ""), H|eauto].
      * exists default_registry.
        split; [eapply (Hsecond default_registry ""), H|eauto].
  - destruct (PyStr.split "/" image_name) as [|p0 rest] eqn:Hs;
      [now apply split_not_nil in Hs|].
    cbn [index0 mbind outcome_bind].
    destruct (_ && _); [|destruct (_ && _)]; intros H.
    * exists p0. split; [eapply (Hsecond p0 ""), H|eauto].
    * exists p0. split; [eapply (Hsecond p0 ""), H|eauto].
    * exists default_registry.
      split; [eapply (Hsecond default_registry ""), H|eauto].
Qed.

(** Without an override the invariant of the specification holds: the
    registry is the default one or a '/'-free segment of the image name, and
    neither starts with a scheme. *)
Lemma parse_image_name_no_override_no_scheme image_name ref :
  _parse_image_name image_name None = Returns ref ->
  PyStr.startswith "https://" (ImageReference.registry ref) = false
  /\ PyStr.startswith "http://" (ImageReference.registry ref) = false.
Proof.
  intros H. apply parse_image_name_registry in H as (raw & -> & Hraw).
  assert (Hs : PyStr.startswith "https://" raw = false
               /\ PyStr.startswith "http://" raw = false).
  { destruct Hraw as [Hnone | [Hdefault | [rest Hsplit]]].
    - discriminate Hnone.
    - subst raw. split; reflexivity.
    - apply split_head_no_sep in Hsplit.
      split; apply not_true_iff_false; intros Hp;
        apply (startswith_has_char "/") in Hp; try reflexivity; congruence. }
  destruct Hs as [Hhttps Hhttp]. rewrite Hhttps, Hhttp. split; assumption.
Qed.

Lemma parse_image_name_returns image_name registry_override :
  exists ref, _parse_image_name image_name registry_override = Returns ref.
Proof.
  unfold _parse_image_name.
  assert (Hsecond : forall (reg name : string),
    exists ref,
      ('(repository, tag) ←
         (if negb (PyStr.has_char ":" name) then Returns (name, "latest")
          else unpack2 (PyStr.split_max ":" name 1));
       let reg' :=
         if PyStr.startswith "https://" reg then PyStr.drop (String.length "https://") reg
         else if PyStr.startswith "http://" reg then PyStr.drop (String.length "http://") reg
         else reg in
       let repository :=
         if String.eqb reg' default_registry && negb (PyStr.has_char "/" repository)
         then "library/" ++ repository else repository in
       Returns {| ImageReference.registry := reg';
                  ImageReference.repository := repository;
                  ImageReference.tag := tag |}) = Returns ref).
  { intros reg name. destruct (PyStr.has_char ":" name) eqn:Hc; cbn [negb].
    - destruct (split_max_one _ _ Hc) as (a & b & ->). cbn. eauto.
    - cbn. eauto. }
  destruct (truthy_opt_str registry_override).
  - cbn [mbind outcome_bind]. apply Hsecond.
  - destruct (PyStr.split "/" image_name) as [|p0 rest] eqn:Hs;
      [now apply split_not_nil in Hs|].
    cbn [index0 mbind outcome_bind].
    destruct (_ && _); [apply Hsecond|].
    destruct (_ && _); apply Hsecond.
Qed.

(** C8. [_parse_image_name] returns a reference for every image name and
    every optional override; being a function outside the probe monad it
    reads and changes nothing of the outside world, and run inside a probe it
    leaves the state as it found it. *)
Theorem parse_image_name_total (image_name : string) (registry_override : option string) :
  exists ref,
    _parse_image_name image_name registry_override = Returns ref
    /\ forall env st,
         lift (_parse_image_name image_name registry_override) env st = (Returns ref, st).
Proof.
  destruct (parse_image_name_returns image_name registry_override) as [ref Href].
  exists ref. split; [exact Href|]. intros env st. unfold lift. now rewrite Href.
Qed.

(** ** The DNS codec *)

(** *** Sixteen-bit fields *)

Lemma byte_of_Z_to_Z z :
  (0 <= z < 256)%Z -> Struct.Z_of_byte (WireSpec.byte_of_Z z) = z.
Proof.
  intros Hz. unfold Struct.Z_of_byte, WireSpec.byte_of_Z.
  destruct (Byte.of_N (Z.to_N z)) as [b|] eqn:E.
  - apply Byte.to_of_N in E. cbn. rewrite E. lia.
  - apply Byte.of_N_None_iff in E. lia.
Qed.

Lemma low_byte_mod z : Struct.low_byte z = WireSpec.byte_of_Z (z mod 256).
Proof.
  unfold Struct.low_byte, WireSpec.byte_of_Z.
  change 255%Z with (Z.ones 8). now rewrite Z.land_ones by lia.
Qed.

Lemma pack_H_u16_be x :
  (0 <= x <= 65535)%Z -> Struct.pack_H x = Returns (WireSpec.u16_be x).
Proof.
  intros Hx. unfold Struct.pack_H, WireSpec.u16_be.
  replace ((0 <=? x)%Z && (x <=? 65535)%Z) with true by (symmetry; apply andb_true_iff; lia).
  rewrite !low_byte_mod, Z.shiftr_div_pow2 by lia.
  change (2 ^ 8)%Z with 256%Z.
  rewrite (Z.mod_small (x / 256) 256); [reflexivity|].
  split; [apply Z.div_pos; lia | apply Z.div_lt_upper_bound; lia].
Qed.

Lemma unpack_H_u16_be x :
  (0 <= x <= 65535)%Z ->
  match WireSpec.u16_be x with
  | [hi; lo] => Struct.unpack_H hi lo = x
  | _ => False
  end.
Proof.
  intros Hx. unfold WireSpec.u16_be, Struct.unpack_H.
  assert (Hd : (0 <= x / 256 < 256)%Z)
    by (split; [apply Z.div_pos; lia | apply Z.div_lt_upper_bound; lia]).
  assert (Hm : (0 <= x mod 256 < 256)%Z) by (apply Z.mod_pos_bound; lia).
  rewrite !byte_of_Z_to_Z by assumption.
  rewrite Z.shiftl_mul_pow2 by lia. change (2 ^ 8)%Z with 256%Z.
  rewrite <- Z.add_nocarry_lor.
  - pose proof (Z.div_mod x 256). lia.
  - change 256%Z with (2 ^ 8)%Z.
    apply Z.bits_inj'. intros n Hn. rewrite Z.land_spec, Z.bits_0.
    destruct (Z.ltb_spec n 8).
    + rewrite Z.mul_pow2_bits_low by lia. reflexivity.
    + rewrite Z.mod_pow2_bits_high by lia. apply andb_false_r.
Qed.

(** *** Labels *)

Lemma byte_eqb_of_ascii c d :
  Byte.eqb (byte_of_ascii c) (byte_of_ascii d) = Ascii.eqb c d.
Proof.
  destruct (Ascii.eqb_spec c d) as [->|Hne].
  - apply Byte.byte_dec_lb. reflexivity.
  - destruct (Byte.eqb _ _) eqn:E; [|reflexivity].
    apply Byte.byte_dec_bl in E.
    apply (f_equal ascii_of_byte) in E.
    rewrite !ascii_of_byte_of_ascii in E. contradiction.
Qed.

Lemma list_byte_of_string_cons c r :
  list_byte_of_string (String c r) = byte_of_ascii c :: list_byte_of_string r.
Proof. reflexivity. Qed.

Lemma length_list_byte_of_string s :
  List.length (list_byte_of_string s) = String.length s.
Proof.
  induction s as [|c r IH]; [reflexivity|].
  rewrite list_byte_of_string_cons. simpl. now rewrite IH.
Qed.

(** Splitting the encoded domain on the byte '.' gives the encodings of the
    domain's '.'-separated labels. *)
Lemma bytes_split_encode s :
  PyBytes.split "."%byte (list_byte_of_string s)
  = map list_byte_of_string (PyStr.split "." s).
Proof.
  induction s as [|c r IH]; [reflexivity|].
  rewrite list_byte_of_string_cons. simpl PyBytes.split. simpl PyStr.split.
  rewrite IH.
  change (Byte.eqb (byte_of_ascii c) ".") with (Byte.eqb (byte_of_ascii c) (byte_of_ascii ".")).
  rewrite byte_eqb_of_ascii.
  destruct (Ascii.eqb c "."); [reflexivity|].
  destruct (PyStr.split "." r); reflexivity.
Qed.

Lemma qname_loop_labels labels acc :
  Forall (fun l => String.length l <= 255) labels ->
  qname_loop (map list_byte_of_string labels) acc
  = Returns (acc ++ concat (map WireSpec.label labels))%list.
Proof.
  intros H. revert acc. induction H as [|l labels Hl _ IH]; intros acc.
  - simpl. now rewrite app_nil_r.
  - simpl. rewrite length_list_byte_of_string. unfold PyBytes.of_len, WireSpec.label.
    destruct (Byte.of_nat (String.length l)) as [b|] eqn:E.
    + cbn. rewrite IH. now rewrite <- app_assoc.
    + apply Byte.of_nat_None_iff in E. lia.
Qed.

(** *** The datagram *)

Lemma record_types_codes record_type qtype :
  record_types !! record_type = Some qtype ->
  qtype = 1%Z \/ qtype = 28%Z \/ qtype = 15%Z \/ qtype = 5%Z.
Proof.
  unfold record_types. rewrite !lookup_insert_Some, lookup_empty.
  intuition (try discriminate; auto).
Qed.

(** The draw of [random.randint(0, 65535)] in state [st]. *)
Lemma transaction_id_range env st :
  (0 <= 0 + Z.of_N (entropy env (rng_reads st)) mod (65535 - 0 + 1) <= 65535)%Z.
Proof.
  pose proof (Z.mod_pos_bound (Z.of_N (entropy env (rng_reads st))) 65536).
  change (65535 - 0 + 1)%Z with 65536%Z. lia.
Qed.

Lemma create_dns_query_run domain record_type qtype env st :
  record_types !! record_type = Some qtype ->
  Forall (fun label => String.length label <= 255) (PyStr.split "." domain) ->
  create_dns_query domain qtype env st
  = (Returns (WireSpec.query
                (0 + Z.of_N (entropy env (rng_reads st)) mod (65535 - 0 + 1))
                domain qtype),
     {| open_sockets := open_sockets st; next_fd := next_fd st;
        clock_reads := clock_reads st; rng_reads := S (rng_reads st);
        trace := trace st |}).
Proof.
  intros Hrt Hlabels.
  pose proof (transaction_id_range env st) as Htid.
  unfold create_dns_query.
  cbv beta iota delta [mbind mret M_bind M_ret lift random_randint].
  cbn [Struct.pack_Hs].
  rewrite (pack_H_u16_be _ Htid).
  rewrite bytes_split_encode, (qname_loop_labels _ [] Hlabels).
  apply record_types_codes in Hrt.
  destruct Hrt as [-> | [-> | [-> | ->]]]; reflexivity.
Qed.

(** C2, amended.  For every domain whose '.'-separated labels are at most 255
    bytes long and every supported record type, [create_dns_query] returns
    the datagram of the specification: six big-endian 16-bit header fields
    (a transaction id of 0..65535, flags 0x0100, one question, no other
    record), the length-prefixed labels closed by a zero byte, the record
    type code and class 1.  The first twelve bytes decode to these header
    fields. *)
Theorem create_dns_query_wire_format
    (domain record_type : string) (qtype : Z) (env : Env) (st : State) :
  record_types !! record_type = Some qtype ->
  Forall (fun label => String.length label <= 255) (PyStr.split "." domain) ->
  exists transaction_id datagram,
    (0 <= transaction_id <= 65535)%Z
    /\ fst (create_dns_query domain qtype env st) = Returns datagram
    /\ datagram = WireSpec.query transaction_id domain qtype
    /\ Struct.unpack_6H (take 12 datagram)
       = Returns (transaction_id, 0x0100, 1, 0, 0, 0)%Z
    /\ drop 12 datagram
       = (WireSpec.qname domain ++ WireSpec.u16_be qtype ++ WireSpec.u16_be 1)%list.
Proof.
  intros Hrt Hlabels.
  pose proof (transaction_id_range env st) as Htid.
  eexists _, _. split; [exact Htid|].
  split; [now rewrite (create_dns_query_run _ _ _ _ _ Hrt Hlabels)|].
  split; [reflexivity|]. split; [|reflexivity].
  pose proof (unpack_H_u16_be _ Htid) as Hu.
  unfold WireSpec.query. unfold WireSpec.u16_be at 1.
  unfold WireSpec.u16_be at 1 in Hu.
  cbn. rewrite Hu. reflexivity.
Qed.

(** The datagram for "example.com" and record type A: after the header come
    07 "example" 03 "com" 00, then type 1 and class 1. *)
Lemma create_dns_query_example_com :
  (WireSpec.qname "example.com" ++ WireSpec.u16_be 1 ++ WireSpec.u16_be 1)%list
    = ["007"; "e"; "x"; "a"; "m"; "p"; "l"; "e"; "003"; "c"; "o"; "m"; "000";
       "000"; "001"; "000"; "001"]%byte
  /\ exists transaction_id datagram,
    (0 <= transaction_id <= 65535)%Z
    /\ fst (create_dns_query "example.com" 1 Samples.silent Samples.fresh)
       = Returns datagram
    /\ datagram = WireSpec.query transaction_id "example.com" 1
    /\ Struct.unpack_6H (take 12 datagram)
       = Returns (transaction_id, 0x0100, 1, 0, 0, 0)%Z
    /\ drop 12 datagram
       = (WireSpec.qname "example.com" ++ WireSpec.u16_be 1 ++ WireSpec.u16_be 1)%list.
Proof.
  split; [reflexivity|].
  apply (create_dns_query_wire_format "example.com" "A" 1 Samples.silent Samples.fresh).
  - reflexivity.
  - repeat constructor; simpl; lia.
Defined.

(** A label of 256 bytes does not fit the length byte: the call raises. *)
Lemma create_dns_query_long_label_raises :
  fst (create_dns_query Samples.long_label 1 Samples.silent Samples.fresh)
    = Raises (Exc ValueError "bytes must be in range(0, 256)")
  /\ record_types !! "A" = Some 1%Z.
Proof. split; vm_compute; reflexivity. Qed.

(** ** Running probes *)

(** One step of a run: the monad operations and the primitives unfold, the
    state record is rebuilt. *)
Ltac run_probe :=
  cbv beta iota zeta delta
    [mbind mret M_bind M_ret lift raise try_except try_except_only
     socket_socket sendto recvfrom connect_ex sock_close getaddrinfo
     time_time datetime_now_isoformat requests_request requests_get
     requests_head log set_sockets
     open_sockets next_fd clock_reads rng_reads trace fst snd].

(** The monad laws, pointwise. *)
Lemma M_bind_ret_l {A B : Type} (a : A) (f : A -> M B) env st :
  (mret a ≫= f) env st = f a env st.
Proof. reflexivity. Qed.

Lemma M_bind_ret_r {A : Type} (m : M A) env st :
  (m ≫= mret) env st = m env st.
Proof.
  unfold mbind, M_bind, mret, M_ret. destruct (m env st) as [[a|e] st']; reflexivity.
Qed.

Lemma M_bind_assoc {A B C : Type} (m : M A) (f : A -> M B) (g : B -> M C) env st :
  ((m ≫= f) ≫= g) env st = (m ≫= (fun a => f a ≫= g)) env st.
Proof.
  unfold mbind, M_bind. destruct (m env st) as [[a|e] st']; reflexivity.
Qed.

(** A handler sees the state the body left behind. *)
Lemma try_except_raises {A : Type} (body : M A) handler env st e st' :
  body env st = (Raises e, st') ->
  try_except body handler env st = handler e env st'.
Proof. unfold try_except. now intros ->. Qed.

Lemma try_except_returns {A : Type} (body : M A) handler env st a st' :
  body env st = (Returns a, st') ->
  try_except body handler env st = (Returns a, st').
Proof. unfold try_except. now intros ->. Qed.

(** The events of a run whose trace is the old trace and some more. *)
Ltac issued_events :=
  unfold issued; cbn [trace List.length];
  rewrite <- ?app_assoc; rewrite ?drop_app_length; cbn [app].

Lemma settimeout_3 fd : settimeout fd 3 = mret tt.
Proof. reflexivity. Qed.

(** Timeouts of at most 9223372036 seconds lie inside the 64-bit range of
    nanoseconds. *)
Lemma timeout_ns_accepted (v : Q) :
  (0 <= v <= 9223372036)%Q -> (0 <= timeout_ns v < 2 ^ 63)%Z.
Proof.
  intros [Hlo Hhi]. unfold timeout_ns.
  assert (H0 : (0 <= v * 1000000000)%Q)
    by (apply Qmult_le_0_compat; [exact Hlo|discriminate]).
  assert (H1 : (v * 1000000000 <= 9223372036 * 1000000000)%Q)
    by (apply Qmult_le_compat_r; [exact Hhi|discriminate]).
  apply Qle_bool_iff in H0 as Hb. rewrite Hb.
  apply Qceiling_resp_le in H0, H1.
  change (Qceiling 0) with 0%Z in H0.
  change (Qceiling (9223372036 * 1000000000)) with 9223372036000000000%Z in H1.
  lia.
Qed.


Lemma settimeout_accepts fd (v : Q) :
  (0 <= v <= 9223372036)%Q -> settimeout fd v = mret tt.
Proof.
  intros H. apply timeout_ns_accepted in H. unfold settimeout. cbv zeta.
  replace (timeout_ns v <? - 2 ^ 63)%Z with false by (symmetry; apply Z.ltb_ge; lia).
  replace (2 ^ 63 <=? timeout_ns v)%Z with false by (symmetry; apply Z.leb_gt; lia).
  replace (timeout_ns v <? 0)%Z with false by (symmetry; apply Z.ltb_ge; lia).
  reflexivity.
Qed.


Lemma unpack_6H_length bs fields :
  Struct.unpack_6H bs = Returns fields -> List.length bs = 12.
Proof.
  intros H. do 13 (destruct bs as [|? bs]; try discriminate). reflexivity.
Qed.

Lemma unpack_6H_take_long reply fields :
  Struct.unpack_6H (take 12 reply) = Returns fields ->
  (List.length reply <? 12)%nat = false.
Proof.
  intros H. apply unpack_6H_length in H. rewrite length_take in H.
  apply Nat.ltb_ge. lia.
Qed.

(** ** The DNS probe *)

(** The calls of [check_dns] in which a reply arrives: the record type is
    supported, the socket opens, every label of the domain fits its length
    byte, the query leaves, and [recvfrom] returns [data]. *)
Section ReplyArrives.

Variables (input : DNSCheckInput.t) (env : Env) (st : State) (data : list byte).

Hypothesis Hsupported : is_Some (record_types !! DNSCheckInput.record_type input).
Hypothesis Hsocket : os_socket env AF_INET SOCK_DGRAM = None.
Hypothesis Hlabels :
  Forall (fun label => String.length label <= 255)
         (PyStr.split "." (DNSCheckInput.domain input)).
Hypothesis Hsent :
  forall query, os_sendto env query (DNSCheckInput.nameserver input) 53 = None.
Hypothesis Hreply : os_recvfrom env = Returns data.

(** The run of [check_dns] up to the arrival of the reply. *)
Ltac run_to_reply :=
  destruct Hsupported as [qtype Hrt];
  destruct st as [socks nfd creads rreads tr];
  unfold check_dns; rewrite Hrt; run_probe; rewrite Hsocket; run_probe;
  rewrite settimeout_3; run_probe;
  rewrite (create_dns_query_run _ _ _ _ _ Hrt Hlabels); run_probe;
  rewrite Hsent, Hreply; run_probe.

(** C5, amended.  When a reply arrives that is shorter than 12 bytes or
    carries a nonzero response code, [check_dns] returns a failure whose
    error is "Response too short", respectively "DNS response code: " and
    the code, with no records and with [response_time_ms] null: the handler
    that builds the failure does not use the measured time. *)
Theorem check_dns_bad_reply (msg : string) :
  (List.length (take 512 data) < 12 /\ msg = "Response too short"
   \/ exists id flags qd an ns ar,
        Struct.unpack_6H (take 12 (take 512 data))
          = Returns (id, flags, qd, an, ns, ar)
        /\ Z.land flags 0x000F <> 0%Z
        /\ msg = "DNS response code: " ++ PyStr.of_Z (Z.land flags 0x000F)) ->
  fst (check_dns input env st)
  = Returns {| DnsResult.success := false;
               DnsResult.domain := DNSCheckInput.domain input;
               DnsResult.record_type := DNSCheckInput.record_type input;
               DnsResult.records := [];
               DnsResult.response_time_ms := None;
               DnsResult.timestamp := now_isoformat env;
               DnsResult.error := Some msg |}.
Proof.
  intros Hbad. run_to_reply.
  destruct Hbad as [[Hshort ->] | (id & flags & qd & an & ns & ar & Hhdr & Hrcode & ->)].
  - apply Nat.ltb_lt in Hshort. rewrite Hshort. reflexivity.
  - rewrite (unpack_6H_take_long _ _ Hhdr), Hhdr. run_probe.
    apply Z.eqb_neq in Hrcode. rewrite Hrcode. reflexivity.
Qed.

(** C10, amended.  When a reply arrives whose header carries response code
    0, [check_dns] returns success with no error, an empty record list and a
    response time if the header's answer count is 0 or the lookup through
    [getaddrinfo] raises [gaierror].  Response code 0 alone does not give
    success: with a positive answer count, an exception of [getaddrinfo]
    that is no [gaierror] reaches the outer handler, and the result is a
    failure with the text of the exception, no records and no response
    time.  With a positive answer count and a lookup that returns, the
    result is a success. *)
Theorem check_dns_success_without_records (id flags qd an ns ar : Z) :
  Struct.unpack_6H (take 12 (take 512 data)) = Returns (id, flags, qd, an, ns, ar) ->
  Z.land flags 0x000F = 0%Z ->
  exists r,
    fst (check_dns input env st) = Returns r
    /\ DnsResult.domain r = DNSCheckInput.domain input
    /\ DnsResult.record_type r = DNSCheckInput.record_type input
    /\ (an = 0%Z
        \/ (exists e, os_getaddrinfo env (DNSCheckInput.domain input) = Raises e
                      /\ is_gaierror e = true) ->
        DnsResult.success r = true
        /\ DnsResult.error r = None
        /\ DnsResult.records r = []
        /\ is_Some (DnsResult.response_time_ms r))
    /\ (forall e,
          (0 < an)%Z ->
          os_getaddrinfo env (DNSCheckInput.domain input) = Raises e ->
          is_gaierror e = false ->
          DnsResult.success r = false
          /\ DnsResult.error r = Some (exc_str e)
          /\ DnsResult.records r = []
          /\ DnsResult.response_time_ms r = None)
    /\ (forall addrs,
          (0 < an)%Z ->
          os_getaddrinfo env (DNSCheckInput.domain input) = Returns addrs ->
          DnsResult.success r = true
          /\ DnsResult.error r = None
          /\ is_Some (DnsResult.response_time_ms r)).
Proof.
  intros Hhdr Hrcode. run_to_reply.
  rewrite (unpack_6H_take_long _ _ Hhdr), Hhdr. run_probe.
  rewrite Hrcode. cbn [Z.eqb negb].
  destruct (Z.gtb_spec an 0) as [Hpos|Hnonpos]; run_probe.
  - destruct (os_getaddrinfo env (DNSCheckInput.domain input)) as [addrs|e] eqn:Hgai;
      run_probe; [|destruct (is_gaierror e) eqn:Hcls; run_probe].
    all: eexists; (split; [reflexivity|]); cbn.
    all: (split; [reflexivity|]); (split; [reflexivity|]).
    all: split; [|split].
    all: try (intros [-> | (e' & [= <-] & Hcls')]; [lia|]).
    all: try (intros [Hzero | (e' & He' & _)]; [lia|discriminate]).
    all: try (intros e' _ [= <-] Hcls'); try (intros e' _ [=]).
    all: try (intros addrs' _ [= <-]); try (intros addrs' _ [=]).
    all: try congruence; repeat split; eauto.
  - eexists. split; [reflexivity|]. cbn.
    split; [reflexivity|]. split; [reflexivity|].
    split; [intros _; repeat split; eauto|].
    split; intros; lia.
Qed.

(** Once the reply has arrived the socket is closed, whatever the reply. *)
Lemma check_dns_reply_closes_socket :
  open_sockets (snd (check_dns input env st))
  = List.filter (fun s => negb (s =? next_fd st)%nat) (next_fd st :: open_sockets st).
Proof.
  run_to_reply.
  repeat (run_probe; cbn [negb];
          match goal with
          | |- context [if (?a <? ?b)%nat then _ else _] => destruct (a <? b)%nat
          | |- context [match Struct.unpack_6H ?bs with _ => _ end] =>
              destruct (Struct.unpack_6H bs) as [[[[[[? ?] ?] ?] ?] ?]|?]
          | |- context [if negb (?a =? ?b)%Z then _ else _] => destruct (a =? b)%Z
          | |- context [if (?a >? ?b)%Z then _ else _] => destruct (a >? b)%Z
          | |- context [match os_getaddrinfo ?e ?h with _ => _ end] =>
              destruct (os_getaddrinfo e h)
          | |- context [if is_gaierror ?e then _ else _] => destruct (is_gaierror e)
          end);
    reflexivity.
Qed.

End ReplyArrives.

(** A reply of five bytes: the failure of C5 at a concrete call. *)
Lemma check_dns_short_reply_example :
  fst (check_dns (Samples.dns_input "example.com" "A")
         (Samples.with_reply ["001"; "002"; "003"; "004"; "005"]%byte Samples.silent)
         Samples.fresh)
  = Returns {| DnsResult.success := false;
               DnsResult.domain := "example.com";
               DnsResult.record_type := "A";
               DnsResult.records := [];
               DnsResult.response_time_ms := None;
               DnsResult.timestamp := "2025-01-01T00:00:00";
               DnsResult.error := Some "Response too short" |}.
Proof.
  apply (check_dns_bad_reply (Samples.dns_input "example.com" "A")
           (Samples.with_reply ["001"; "002"; "003"; "004"; "005"]%byte Samples.silent)
           Samples.fresh ["001"; "002"; "003"; "004"; "005"]%byte).
  - exists 1%Z. reflexivity.
  - reflexivity.
  - repeat constructor; simpl; lia.
  - reflexivity.
  - reflexivity.
  - left. split; [cbn; lia | reflexivity].
Defined.

(** The same call, read against the specification's word that the timing is
    always reported: the reply arrived and was timed, yet [response_time_ms]
    is null. *)
Lemma check_dns_short_reply_has_no_timing :
  exists r,
    fst (check_dns (Samples.dns_input "example.com" "A")
           (Samples.with_reply ["001"; "002"; "003"; "004"; "005"]%byte Samples.silent)
           Samples.fresh) = Returns r
    /\ DnsResult.success r = false
    /\ DnsResult.error r = Some "Response too short"
    /\ DnsResult.response_time_ms r = None.
Proof. eexists. repeat split. Qed.

(** A reply with response code 0 and no answer: success without records. *)
Lemma check_dns_no_answer_example :
  let env := Samples.with_reply
               ["017"; "p"; "129"; "128"; "000"; "001"; "000"; "000";
                "000"; "000"; "000"; "000"]%byte Samples.silent in
  exists r,
    fst (check_dns (Samples.dns_input "example.com" "A") env Samples.fresh)
    = Returns r
    /\ DnsResult.success r = true
    /\ DnsResult.error r = None
    /\ DnsResult.records r = []
    /\ is_Some (DnsResult.response_time_ms r).
Proof.
  intros env.
  destruct (check_dns_success_without_records
              (Samples.dns_input "example.com" "A") env Samples.fresh
              ["017"; "p"; "129"; "128"; "000"; "001"; "000"; "000";
               "000"; "000"; "000"; "000"]%byte
              (ex_intro _ 1%Z eq_refl) eq_refl
              ltac:(repeat constructor; simpl; lia)
              (fun _ => eq_refl) eq_refl
              4464%Z 33152%Z 1%Z 0%Z 0%Z 0%Z eq_refl eq_refl)
    as (r & Hrun & _ & _ & Hsuccess & _).
  exists r. split; [exact Hrun|]. apply Hsuccess. left. reflexivity.
Defined.

(** The claim as first written, success whenever the response code is 0,
    fails on a reply with response code 0 and one answer when the lookup
    raises an exception that is no [gaierror], as [getaddrinfo] does for the
    name "a..b": the call returns a failure. *)
Lemma check_dns_rcode_0_is_not_always_success :
  Struct.unpack_6H (take 12 (take 512 MoreSamples.one_answer))
  = Returns (4464%Z, 33152%Z, 1%Z, 1%Z, 0%Z, 0%Z)
  /\ Z.land 33152 0x000F = 0%Z
  /\ fst (check_dns (Samples.dns_input "a..b" "A") MoreSamples.idna_failure
            Samples.fresh)
     = Returns {| DnsResult.success := false;
                  DnsResult.domain := "a..b";
                  DnsResult.record_type := "A";
                  DnsResult.records := [];
                  DnsResult.response_time_ms := None;
                  DnsResult.timestamp := "2025-01-01T00:00:00";
                  DnsResult.error :=
                    Some "encoding with 'idna' codec failed (UnicodeError: label empty or too long)" |}.
Proof. repeat split. Qed.

(** ** Sockets *)

(** When [recvfrom] raises, [check_dns] returns its failure with the socket
    it opened still open. *)
Lemma check_dns_recv_failure_leaves_socket input env st e :
  is_Some (record_types !! DNSCheckInput.record_type input) ->
  os_socket env AF_INET SOCK_DGRAM = None ->
  Forall (fun label => String.length label <= 255)
         (PyStr.split "." (DNSCheckInput.domain input)) ->
  (forall query, os_sendto env query (DNSCheckInput.nameserver input) 53 = None) ->
  os_recvfrom env = Raises e ->
  exists r,
    fst (check_dns input env st) = Returns r
    /\ DnsResult.success r = false
    /\ DnsResult.error r = Some (exc_str e)
    /\ open_sockets (snd (check_dns input env st)) = next_fd st :: open_sockets st.
Proof.
  intros [qtype Hrt] Hsocket Hlabels Hsent Hrecv.
  destruct st as [socks nfd creads rreads tr].
  unfold check_dns. rewrite Hrt. run_probe. rewrite Hsocket. run_probe.
  rewrite settimeout_3. run_probe.
  rewrite (create_dns_query_run _ _ _ _ _ Hrt Hlabels). run_probe.
  rewrite Hsent, Hrecv. run_probe.
  eexists. repeat split.
Qed.

(** When [connect_ex] raises, [check_port] returns its failure with the
    socket it opened still open. *)
Lemma check_port_connect_failure_leaves_socket input env st e :
  os_socket env AF_INET SOCK_STREAM = None ->
  (0 <= PortCheckInput.timeout input <= 9223372036)%Q ->
  os_connect_ex env (PortCheckInput.host input) (PortCheckInput.port input) = Raises e ->
  exists r,
    fst (check_port input env st) = Returns r
    /\ PortResult.success r = false
    /\ PortResult.error r = Some (exc_str e)
    /\ open_sockets (snd (check_port input env st)) = next_fd st :: open_sockets st.
Proof.
  intros Hsocket Htimeout Hconnect.
  destruct st as [socks nfd creads rreads tr].
  unfold check_port. run_probe. rewrite Hsocket. run_probe.
  rewrite (settimeout_accepts _ _ Htimeout). run_probe.
  rewrite Hconnect. run_probe.
  eexists. repeat split.
Qed.

(** When [connect_ex] returns, the socket is closed before the result. *)
Lemma check_port_connect_closes_socket input env st code :
  os_socket env AF_INET SOCK_STREAM = None ->
  (0 <= PortCheckInput.timeout input <= 9223372036)%Q ->
  os_connect_ex env (PortCheckInput.host input) (PortCheckInput.port input)
    = Returns code ->
  open_sockets (snd (check_port input env st))
  = List.filter (fun s => negb (s =? next_fd st)%nat) (next_fd st :: open_sockets st).
Proof.
  intros Hsocket Htimeout Hconnect.
  destruct st as [socks nfd creads rreads tr].
  unfold check_port. run_probe. rewrite Hsocket. run_probe.
  rewrite (settimeout_accepts _ _ Htimeout). run_probe.
  rewrite Hconnect. run_probe. reflexivity.
Qed.

(** C9.  A socket is left open when the exchange raises: after a [check_dns]
    call whose reply times out, and after a [check_port] call whose host name
    does not resolve, the failure result is returned while the socket opened
    by the call is still among the open sockets. *)
Theorem sockets_left_open_on_exception :
  check_dns (Samples.dns_input "example.com" "A") Samples.silent Samples.fresh
  = (Returns {| DnsResult.success := false;
                DnsResult.domain := "example.com";
                DnsResult.record_type := "A";
                DnsResult.records := [];
                DnsResult.response_time_ms := None;
                DnsResult.timestamp := "2025-01-01T00:00:00";
                DnsResult.error := Some "timed out" |},
     {| open_sockets := [3]; next_fd := 4; clock_reads := 1; rng_reads := 1;
        trace := [EvSocket 3 AF_INET SOCK_DGRAM;
                  EvSendto 3 (WireSpec.query 4464 "example.com" 1) "8.8.8.8" 53] |})
  /\ check_port {| PortCheckInput.host := "no-such-host.invalid";
                   PortCheckInput.port := 443;
                   PortCheckInput.timeout := 3 |} Samples.silent Samples.fresh
  = (Returns {| PortResult.success := false;
                PortResult.host := "no-such-host.invalid";
                PortResult.port := 443;
                PortResult.response_time_ms := None;
                PortResult.timestamp := "2025-01-01T00:00:00";
                PortResult.error := Some "[Errno -2] Name or service not known" |},
     {| open_sockets := [3]; next_fd := 4; clock_reads := 1; rng_reads := 0;
        trace := [EvSocket 3 AF_INET SOCK_STREAM] |}).
Proof. split; reflexivity. Qed.

(** ** The HTTP probe *)

(** C6.  [check_http_response] issues one request; it returns success, with
    the status code, the timing and the content length, exactly when that
    request returns a response, whatever the status; when the request raises
    it returns a failure whose status code, timing and content length are
    null and whose error is the text of the exception. *)
Theorem check_http_response_outcome
    (input : HTTPCheckInput.t) (env : Env) (st : State) :
  let req := http_check_request input in
  let run := check_http_response input env st in
  issued st (snd run) = [EvHttp req]
  /\ exists r,
       fst run = Returns r
       /\ (HttpResult.success r = true <-> exists resp, http env req = Returns resp)
       /\ (forall resp, http env req = Returns resp ->
             HttpResult.success r = true
             /\ HttpResult.status_code r = Some (resp_status_code resp)
             /\ is_Some (HttpResult.response_time_ms r)
             /\ HttpResult.content_length r = Some (List.length (resp_content resp))
             /\ HttpResult.error r = None)
       /\ (forall e, http env req = Raises e ->
             HttpResult.success r = false
             /\ HttpResult.status_code r = None
             /\ HttpResult.response_time_ms r = None
             /\ HttpResult.content_length r = None
             /\ HttpResult.error r = Some (exc_str e)).
Proof.
  intros req run. subst run. destruct st as [socks nfd creads rreads tr].
  unfold check_http_response. fold req. run_probe.
  destruct (http env req) as [resp|e] eqn:Hreq.
  - split; [issued_events; reflexivity|].
    eexists. split; [reflexivity|]. cbn.
    repeat split; eauto; intros; try discriminate.
    + congruence.
    + congruence.
  - split; [issued_events; reflexivity|].
    eexists. split; [reflexivity|]. cbn.
    repeat split; try discriminate; try congruence.
    intros [resp Hresp]. discriminate.
Qed.

(** A response with status 500 is a success of the probe. *)
Lemma check_http_response_500_example :
  exists r,
    fst (check_http_response (Samples.http_input "https://example.invalid/" "get")
           (Samples.with_http
              (fun _ => Returns (Samples.response 500 "Internal Server Error"
                                   Samples.no_json))
              Samples.silent)
           Samples.fresh) = Returns r
    /\ HttpResult.success r = true
    /\ HttpResult.status_code r = Some 500%Z.
Proof.
  destruct (check_http_response_outcome
              (Samples.http_input "https://example.invalid/" "get")
              (Samples.with_http
                 (fun _ => Returns (Samples.response 500 "Internal Server Error"
                                      Samples.no_json))
                 Samples.silent)
              Samples.fresh) as (_ & r & Hr & _ & Hok & _).
  exists r. split; [exact Hr|].
  destruct (Hok (Samples.response 500 "Internal Server Error" Samples.no_json) eq_refl)
    as (Hsuccess & Hstatus & _).
  split; assumption.
Defined.

(** ** The registry manifest probe *)

(** Case analysis along the run of [_check_image_manifest_sync]: on the
    registry test, the outcome of each HTTP exchange, the status tests of
    [raise_for_status], and the decoded token body. *)
Ltac manifest_cases :=
  unfold raise_for_status, json_get;
  repeat (run_probe;
          match goal with
          | |- context [if is_docker_hub_or_mirror ?h then _ else _] =>
              destruct (is_docker_hub_or_mirror h) eqn:?
          | |- context [match http ?e ?r with _ => _ end] =>
              destruct (http e r) eqn:?
          | |- context [if (?s =? ?k)%Z then _ else _] =>
              destruct (Z.eqb_spec s k)
          | |- context [if (?a <=? ?b)%Z && (?c <? ?d)%Z then _ else _] =>
              destruct ((a <=? b)%Z && (c <? d)%Z) eqn:?
          | |- context [match resp_json ?r with _ => _ end] =>
              destruct (resp_json r) eqn:?
          | |- context [match ?b with JDict _ => _ | JNotDict _ => _ end] =>
              destruct b
          | |- context [if is_RequestException ?e then _ else _] =>
              destruct (is_RequestException e) eqn:?
          end).

(** Two answers of the environment to one request are the same answer. *)
Ltac same_answer :=
  repeat match goal with
         | H1 : http ?e ?r = _, H2 : http ?e ?r = _ |- _ =>
             rewrite H1 in H2;
             first [discriminate H2 | injection H2 as ->]
         end.

Ltac same_body :=
  repeat match goal with
         | H1 : resp_json ?r = _, H2 : resp_json ?r = _ |- _ =>
             rewrite H1 in H2;
             first [discriminate H2 | injection H2 as ->]
         end.

(** The status tests of [raise_for_status], as inequalities. *)
Ltac status_facts :=
  rewrite ?andb_true_iff, ?andb_false_iff, ?Z.leb_le, ?Z.ltb_lt,
    ?Z.leb_gt, ?Z.ltb_ge in *.

(** [raise_for_status] raises exactly for the statuses 400..599. *)
Lemma raise_for_status_raises (r : Response) :
  (400 <= resp_status_code r < 600)%Z
  <-> exists e, raise_for_status r = Raises e.
Proof.
  unfold raise_for_status.
  destruct ((400 <=? _)%Z && (_ <? 500)%Z) eqn:H1;
    [|destruct ((500 <=? _)%Z && (_ <? 600)%Z) eqn:H2];
    status_facts; split; eauto; try lia; intros [e He]; discriminate.
Qed.

(** C3, amended.  Once the manifest HEAD request has been issued, its answer
    settles the result: status 200 gives success with status code 200 and
    the status in the message; status 404 gives a failure whose error
    mentions "not found" and whose status code is 404; another status for
    which [raise_for_status] raises (400..599), and an exception of the
    request itself, give a failure with a null status code, the exception
    text as message, and as error that text after the prefix
    "HTTP Request Error: " (or "An unexpected error occurred: " when the
    exception is not a request exception). *)
Theorem manifest_response_classification
    (image_name : string) (registry : option string) (timeout : Q)
    (env : Env) (st : State) (req : HttpRequest) :
  let run := _check_image_manifest_sync image_name registry timeout env st in
  last (trace (snd run)) = Some (EvHttp req) ->
  req_method req = "HEAD" ->
  (forall resp, http env req = Returns resp -> resp_status_code resp = 200%Z ->
     exists r, fst run = Returns (Some r)
       /\ ManifestResult.success r = true
       /\ ManifestResult.status_code r = Some 200%Z
       /\ ManifestResult.message r = "Image manifest found (Status: 200)"
       /\ ManifestResult.error r = None)
  /\ (forall resp, http env req = Returns resp -> resp_status_code resp = 404%Z ->
     exists r msg, fst run = Returns (Some r)
       /\ ManifestResult.success r = false
       /\ ManifestResult.status_code r = Some 404%Z
       /\ ManifestResult.error r = Some msg
       /\ msg = "Image manifest not found (Status: 404)"
       /\ PyStr.contains "not found" msg = true
       /\ ManifestResult.message r = msg)
  /\ (forall resp e, http env req = Returns resp ->
        resp_status_code resp <> 200%Z -> resp_status_code resp <> 404%Z ->
        raise_for_status resp = Raises e ->
     exists r, fst run = Returns (Some r)
       /\ ManifestResult.success r = false
       /\ ManifestResult.status_code r = None
       /\ ManifestResult.message r = exc_str e
       /\ ManifestResult.error r = Some ("HTTP Request Error: " ++ exc_str e))
  /\ (forall e, http env req = Raises e ->
     exists r, fst run = Returns (Some r)
       /\ ManifestResult.success r = false
       /\ ManifestResult.status_code r = None
       /\ ManifestResult.message r = exc_str e
       /\ ManifestResult.error r
          = Some ((if is_RequestException e then "HTTP Request Error: "
                   else "An unexpected error occurred: ") ++ exc_str e)).
Proof.
  intros run Hlast Hhead. subst run.
  destruct st as [socks nfd creads rreads tr].
  destruct (parse_image_name_returns image_name registry) as [ref Href].
  unfold _check_image_manifest_sync in *. rewrite Href in *.
  split; [|split; [|split]].
  - intros resp Hresp Hstatus. revert Hlast. manifest_cases.
    all: rewrite last_snoc; intros [= <-]; try discriminate Hhead.
    all: same_answer; try congruence.
    all: eexists; split; [reflexivity|]; cbn; rewrite ?Hstatus; auto.
  - intros resp Hresp Hstatus. revert Hlast. manifest_cases.
    all: rewrite last_snoc; intros [= <-]; try discriminate Hhead.
    all: same_answer; try congruence.
    all: eexists _, _; split; [reflexivity|]; cbn; rewrite ?Hstatus;
      repeat split; reflexivity.
  - intros resp e Hresp H200 H404 Hraise. revert Hlast Hraise. manifest_cases.
    all: rewrite last_snoc; intros [= <-]; try discriminate Hhead.
    all: same_answer; try congruence.
    all: intros [= <-]; cbn [is_RequestException exc_cls] in *; try discriminate.
    all: eexists; split; [reflexivity|]; cbn; auto.
  - intros e Hresp. revert Hlast. manifest_cases.
    all: rewrite last_snoc; intros [= <-]; try discriminate Hhead.
    all: same_answer.
    all: try congruence.
    all: eexists; split; [reflexivity|]; cbn; auto.
Qed.

(** A registry outside Docker Hub answering 404, then 401, to the manifest
    request. *)
Lemma manifest_classification_examples :
  (exists r msg,
     fst (_check_image_manifest_sync "myregistry.com/myimage:v2" None 30
            (Samples.registry_world (Returns (Samples.response 200 "OK" Samples.no_json))
               (Returns (Samples.response 404 "Not Found" Samples.no_json)))
            Samples.fresh) = Returns (Some r)
     /\ ManifestResult.success r = false
     /\ ManifestResult.status_code r = Some 404%Z
     /\ ManifestResult.error r = Some msg
     /\ msg = "Image manifest not found (Status: 404)"
     /\ PyStr.contains "not found" msg = true
     /\ ManifestResult.message r = msg)
  /\ (exists r,
     fst (_check_image_manifest_sync "myregistry.com/myimage:v2" None 30
            (Samples.registry_world (Returns (Samples.response 200 "OK" Samples.no_json))
               (Returns (Samples.response 401 "Unauthorized" Samples.no_json)))
            Samples.fresh) = Returns (Some r)
     /\ ManifestResult.success r = false
     /\ ManifestResult.status_code r = None
     /\ ManifestResult.message r
        = "401 Client Error: Unauthorized for url: https://example.invalid/"
     /\ ManifestResult.error r
        = Some "HTTP Request Error: 401 Client Error: Unauthorized for url: https://example.invalid/").
Proof.
  pose (ref := {| ImageReference.registry := "myregistry.com";
                  ImageReference.repository := "myimage";
                  ImageReference.tag := "v2" |}).
  split.
  - destruct (manifest_response_classification "myregistry.com/myimage:v2" None 30
                (Samples.registry_world (Returns (Samples.response 200 "OK" Samples.no_json))
                   (Returns (Samples.response 404 "Not Found" Samples.no_json)))
                Samples.fresh (manifest_request ref PyNone 30) eq_refl eq_refl)
      as (_ & Hnot_found & _).
    exact (Hnot_found (Samples.response 404 "Not Found" Samples.no_json) eq_refl eq_refl).
  - destruct (manifest_response_classification "myregistry.com/myimage:v2" None 30
                (Samples.registry_world (Returns (Samples.response 200 "OK" Samples.no_json))
                   (Returns (Samples.response 401 "Unauthorized" Samples.no_json)))
                Samples.fresh (manifest_request ref PyNone 30) eq_refl eq_refl)
      as (_ & _ & Hother & _).
    refine (Hother (Samples.response 401 "Unauthorized" Samples.no_json)
              (Exc HTTPError
                 "401 Client Error: Unauthorized for url: https://example.invalid/")
              eq_refl _ _ eq_refl); discriminate.
Defined.

(** A refused connection: the message is the exception text, the error is
    that text behind a prefix, not the text itself. *)
Lemma manifest_error_is_not_the_exception_text :
  exists r,
    fst (_check_image_manifest_sync "myregistry.com/myimage:v2" None 30
           Samples.silent Samples.fresh) = Returns (Some r)
    /\ http Samples.silent
         (manifest_request
            {| ImageReference.registry := "myregistry.com";
               ImageReference.repository := "myimage";
               ImageReference.tag := "v2" |} PyNone 30)
       = Raises (Exc RequestException "Connection refused")
    /\ ManifestResult.success r = false
    /\ ManifestResult.status_code r = None
    /\ ManifestResult.message r = "Connection refused"
    /\ ManifestResult.error r = Some "HTTP Request Error: Connection refused"
    /\ ManifestResult.error r <> Some "Connection refused".
Proof. eexists. repeat split. discriminate. Qed.

(** A status outside 400..599 other than 200 makes the probe run off its end:
    it returns [None], no result mapping at all. *)
Example manifest_probe_redirect_returns_none :
  fst (_check_image_manifest_sync "myregistry.com/myimage:v2" None 30
         (Samples.registry_world (Returns (Samples.response 200 "OK" Samples.no_json))
            (Returns (Samples.response 302 "Found" Samples.no_json)))
         Samples.fresh) = Returns None.
Proof. reflexivity. Qed.

(** C4, amended.  The probe sends the token request exactly when the resolved
    registry is "registry-1.docker.io", ends with "docker.io" or contains
    "daocloud.io".  When the token response passes [raise_for_status] with a
    2xx status and its JSON object has no [token] field, the manifest request
    follows without an Authorization header.  When the token response has a
    status of 400..599 the call ends there with a failure carrying the HTTP
    error, and no manifest request is made. *)
Theorem token_stage_behaviour
    (image_name : string) (registry : option string) (timeout : Q)
    (env : Env) (st : State) (ref : ImageReference.t) :
  let run := _check_image_manifest_sync image_name registry timeout env st in
  let host := ImageReference.registry ref in
  _parse_image_name image_name registry = Returns ref ->
  (In (EvHttp (token_request ref timeout)) (issued st (snd run))
   <-> (String.eqb host "registry-1.docker.io"
        || PyStr.endswith "docker.io" host
        || PyStr.contains "daocloud.io" host) = true)
  /\ (forall tresp d,
        is_docker_hub_or_mirror host = true ->
        http env (token_request ref timeout) = Returns tresp ->
        (200 <= resp_status_code tresp < 300)%Z ->
        resp_json tresp = Returns (JDict d) ->
        d !! "token" = None ->
        issued st (snd run)
        = [EvHttp (token_request ref timeout);
           EvHttp (manifest_request ref PyNone timeout)]
        /\ req_headers (manifest_request ref PyNone timeout) !! "Authorization" = None)
  /\ (forall tresp,
        is_docker_hub_or_mirror host = true ->
        http env (token_request ref timeout) = Returns tresp ->
        (400 <= resp_status_code tresp < 600)%Z ->
        issued st (snd run) = [EvHttp (token_request ref timeout)]
        /\ exists r e,
             raise_for_status tresp = Raises e
             /\ fst run = Returns (Some r)
             /\ ManifestResult.success r = false
             /\ ManifestResult.status_code r = None
             /\ ManifestResult.message r = exc_str e
             /\ ManifestResult.error r = Some ("HTTP Request Error: " ++ exc_str e)).
Proof.
  intros run host Href. subst run host.
  destruct st as [socks nfd creads rreads tr].
  unfold _check_image_manifest_sync, token_request, manifest_request.
  rewrite Href.
  fold (is_docker_hub_or_mirror (ImageReference.registry ref)).
  split; [|split].
  - manifest_cases.
    all: issued_events.
    all: split; [|intros Hhub; first [discriminate Hhub | left; reflexivity]].
    all: intros Hin; try reflexivity.
    all: destruct Hin as [H|[]]; discriminate H.
  - intros tresp d Hhub Htok Hstatus Hjson Hnone.
    run_probe. rewrite Hhub. manifest_cases.
    all: simplify_eq; same_body; status_facts; try lia.
    all: rewrite ?Hnone; issued_events; split; reflexivity.
  - intros tresp Hhub Htok Hstatus.
    run_probe. rewrite Hhub. manifest_cases.
    all: simplify_eq; status_facts; try lia.
    all: issued_events; (split; [reflexivity|]); eexists _, _;
      (split; [reflexivity|]); (split; [reflexivity|]); cbn; auto.
Qed.

(** Docker Hub answering the token request with an empty JSON object, then
    with status 401. *)
Lemma token_stage_examples :
  let ref := {| ImageReference.registry := "registry-1.docker.io";
                ImageReference.repository := "library/hello-world";
                ImageReference.tag := "latest" |} in
  let anonymous :=
    Samples.registry_world
      (Returns (Samples.response 200 "OK" (Samples.token_body [])))
      (Returns (Samples.response 200 "OK" Samples.no_json)) in
  let refused :=
    Samples.registry_world
      (Returns (Samples.response 401 "Unauthorized" Samples.no_json))
      (Returns (Samples.response 200 "OK" Samples.no_json)) in
  (issued Samples.fresh
     (snd (_check_image_manifest_sync "hello-world" None 30 anonymous Samples.fresh))
   = [EvHttp (token_request ref 30); EvHttp (manifest_request ref PyNone 30)]
   /\ req_headers (manifest_request ref PyNone 30) !! "Authorization" = None)
  /\ (issued Samples.fresh
        (snd (_check_image_manifest_sync "hello-world" None 30 refused Samples.fresh))
      = [EvHttp (token_request ref 30)]
      /\ exists r e,
           raise_for_status (Samples.response 401 "Unauthorized" Samples.no_json)
             = Raises e
           /\ fst (_check_image_manifest_sync "hello-world" None 30 refused Samples.fresh)
              = Returns (Some r)
           /\ ManifestResult.success r = false
           /\ ManifestResult.status_code r = None
           /\ ManifestResult.message r = exc_str e
           /\ ManifestResult.error r = Some ("HTTP Request Error: " ++ exc_str e)).
Proof.
  intros ref anonymous refused. split.
  - destruct (token_stage_behaviour "hello-world" None 30 anonymous Samples.fresh
                ref eq_refl) as (_ & Hsoft & _).
    apply (Hsoft (Samples.response 200 "OK" (Samples.token_body [])) ∅);
      try reflexivity.
    cbn. lia.
  - destruct (token_stage_behaviour "hello-world" None 30 refused Samples.fresh
                ref eq_refl) as (_ & _ & Hfatal).
    apply (Hfatal (Samples.response 401 "Unauthorized" Samples.no_json));
      try reflexivity.
    cbn. lia.
Defined.

(** A token response with status 300 whose body holds a token: the probe
    goes on to the manifest request and reports success. *)
Lemma token_response_300_is_not_fatal :
  exists r,
    resp_status_code
      (Samples.response 300 "Multiple Choices"
         (Samples.token_body [("token", PyStr "abc")])) = 300%Z
    /\ fst (_check_image_manifest_sync "hello-world" None 30
              (Samples.registry_world
                 (Returns (Samples.response 300 "Multiple Choices"
                             (Samples.token_body [("token", PyStr "abc")])))
                 (Returns (Samples.response 200 "OK" Samples.no_json)))
              Samples.fresh) = Returns (Some r)
    /\ ManifestResult.success r = true
    /\ ManifestResult.status_code r = Some 200%Z.
Proof. eexists. repeat split. Qed.

(** * Further properties *)

(** ** The DNS codec, beyond the supported record types *)

(** The loop over the labels returns exactly when every label fits one
    length byte. *)
Lemma qname_loop_outcome labels acc :
  qname_loop (map list_byte_of_string labels) acc
  = if forallb (fun l => (String.length l <=? 255)%nat) labels
    then Returns (acc ++ concat (map WireSpec.label labels))%list
    else Raises (Exc ValueError "bytes must be in range(0, 256)").
Proof.
  revert acc. induction labels as [|l labels IH]; intros acc.
  - simpl. now rewrite app_nil_r.
  - simpl. rewrite length_list_byte_of_string. unfold PyBytes.of_len, WireSpec.label.
    destruct (Nat.leb_spec (String.length l) 255) as [Hle|Hgt].
    + destruct (Byte.of_nat (String.length l)) as [b|] eqn:E.
      * cbn. rewrite IH. destruct (forallb _ labels); [|reflexivity].
        now rewrite <- app_assoc.
      * apply Byte.of_nat_None_iff in E. lia.
    + destruct (Byte.of_nat (String.length l)) as [b|] eqn:E; [|reflexivity].
      apply Byte.to_of_nat in E. pose proof (Byte.to_nat_bounded b). lia.
Qed.

(** The outcome of [create_dns_query] for every domain and every integer
    given as record type. *)
Lemma create_dns_query_outcome domain qtype env st :
  fst (create_dns_query domain qtype env st)
  = if forallb (fun l => (String.length l <=? 255)%nat) (PyStr.split "." domain) then
      if (0 <=? qtype)%Z && (qtype <=? 65535)%Z then
        Returns (WireSpec.query
                   (0 + Z.of_N (entropy env (rng_reads st)) mod (65535 - 0 + 1))
                   domain qtype)
      else Raises (Struct.range_error qtype)
    else Raises (Exc ValueError "bytes must be in range(0, 256)").
Proof.
  pose proof (transaction_id_range env st) as Htid.
  unfold create_dns_query.
  cbv beta iota delta [mbind mret M_bind M_ret lift random_randint fst].
  cbn [Struct.pack_Hs].
  rewrite (pack_H_u16_be _ Htid).
  rewrite bytes_split_encode, qname_loop_outcome.
  destruct (forallb _ _); [|reflexivity].
  cbn [mbind outcome_bind].
  destruct ((0 <=? qtype)%Z && (qtype <=? 65535)%Z) eqn:Hrange.
  - rewrite (pack_H_u16_be qtype)
      by (apply andb_true_iff in Hrange as [?%Z.leb_le ?%Z.leb_le]; lia).
    reflexivity.
  - replace (Struct.pack_H qtype)
      with (@Raises (list byte) (Struct.range_error qtype))
      by (unfold Struct.pack_H; now rewrite Hrange).
    reflexivity.
Qed.

(** X1.  [create_dns_query] accepts every record type code of 16 bits, not
    only the four that [check_dns] passes: with labels of at most 255 bytes
    the datagram is header, question name, that code and class 1, as
    [WireSpec.query] lays them out. *)
Theorem create_dns_query_any_type_code
    (domain : string) (qtype : Z) (env : Env) (st : State) :
  Forall (fun label => String.length label <= 255) (PyStr.split "." domain) ->
  (0 <= qtype <= 65535)%Z ->
  fst (create_dns_query domain qtype env st)
  = Returns (WireSpec.query
               (0 + Z.of_N (entropy env (rng_reads st)) mod (65535 - 0 + 1))
               domain qtype).
Proof.
  intros Hlabels Hrange. rewrite create_dns_query_outcome.
  replace (forallb _ _) with true.
  - replace (_ && _) with true; [reflexivity|].
    symmetry. apply andb_true_iff. split; apply Z.leb_le; lia.
  - symmetry. apply forallb_forall. intros l Hl.
    rewrite Forall_forall in Hlabels. apply Nat.leb_le, Hlabels.
    now apply list_elem_of_In.
Qed.

(** The query for the TXT records (type 16) of "example.com". *)
Lemma create_dns_query_txt_example :
  fst (create_dns_query "example.com" 16 Samples.silent Samples.fresh)
  = Returns (WireSpec.query 4464 "example.com" 16).
Proof.
  apply (create_dns_query_any_type_code "example.com" 16 Samples.silent Samples.fresh).
  - repeat constructor; simpl; lia.
  - lia.
Defined.

(** X2.  [create_dns_query] returns a datagram exactly when every label of
    the domain is at most 255 bytes long and the record type code lies in
    0..65535; otherwise it raises. *)
Theorem create_dns_query_returns_iff
    (domain : string) (qtype : Z) (env : Env) (st : State) :
  (exists datagram, fst (create_dns_query domain qtype env st) = Returns datagram)
  <-> Forall (fun label => String.length label <= 255) (PyStr.split "." domain)
      /\ (0 <= qtype <= 65535)%Z.
Proof.
  rewrite create_dns_query_outcome. split.
  - intros [dg H].
    destruct (forallb _ _) eqn:Hall; [|discriminate].
    destruct (_ && _) eqn:Hrange; [|discriminate].
    split.
    + apply Forall_forall. intros l Hl. apply Nat.leb_le.
      eapply forallb_forall in Hall; [exact Hall|]. now apply list_elem_of_In.
    + apply andb_true_iff in Hrange as [?%Z.leb_le ?%Z.leb_le]. lia.
  - intros [Hlabels Hrange].
    replace (forallb _ _) with true.
    + replace (_ && _) with true; [eauto|].
      symmetry. apply andb_true_iff. split; apply Z.leb_le; lia.
    + symmetry. apply forallb_forall. intros l Hl.
      rewrite Forall_forall in Hlabels. apply Nat.leb_le, Hlabels.
      now apply list_elem_of_In.
Qed.

Lemma length_concat_labels sep s :
  List.length (concat (map WireSpec.label (PyStr.split sep s))) = S (String.length s).
Proof.
  induction s as [|c r IH]; [reflexivity|].
  simpl PyStr.split. destruct (Ascii.eqb c sep).
  - simpl. now rewrite IH.
  - destruct (PyStr.split sep r) as [|h t] eqn:Hr;
      [now apply split_not_nil in Hr|].
    cbn [map concat] in IH |- *. rewrite !length_app in *.
    unfold WireSpec.label in *. rewrite list_byte_of_string_cons.
    cbn [List.length String.length] in *. lia.
Qed.

(** X3.  A datagram built for a domain of [n] bytes is [n + 18] bytes long:
    12 of header, [n + 2] of question name, 4 of type and class. *)
Theorem create_dns_query_length
    (domain : string) (qtype : Z) (env : Env) (st : State) (datagram : list byte) :
  fst (create_dns_query domain qtype env st) = Returns datagram ->
  List.length datagram = String.length domain + 18.
Proof.
  rewrite create_dns_query_outcome.
  destruct (forallb _ _); [|discriminate].
  destruct (_ && _); [|discriminate].
  intros [= <-]. unfold WireSpec.query, WireSpec.qname.
  rewrite !length_app, length_concat_labels. simpl. lia.
Qed.

(** The query for "example.com" (11 bytes) is 29 bytes long. *)
Lemma create_dns_query_length_example :
  exists datagram,
    fst (create_dns_query "example.com" 1 Samples.silent Samples.fresh)
      = Returns datagram
    /\ List.length datagram = 29.
Proof.
  eexists. split; [reflexivity|].
  apply (create_dns_query_length "example.com" 1 Samples.silent Samples.fresh).
  reflexivity.
Defined.

Lemma split_trailing_sep sep s :
  PyStr.split sep (s ++ String sep "") = (PyStr.split sep s ++ [""])%list.
Proof.
  induction s as [|c r IH]; simpl.
  - now rewrite Ascii.eqb_refl.
  - destruct (Ascii.eqb c sep); [now rewrite IH|].
    rewrite IH. destruct (PyStr.split sep r) as [|h t] eqn:Hr;
      [now apply split_not_nil in Hr|reflexivity].
Qed.

(** X4.  A trailing dot is not taken off the domain: the name "d." is
    encoded as the labels of "d" followed by an empty label, so the question
    name of "d" is followed by a second zero byte before type and class. *)
Theorem create_dns_query_trailing_dot
    (domain : string) (qtype : Z) (env : Env) (st : State) :
  Forall (fun label => String.length label <= 255) (PyStr.split "." domain) ->
  (0 <= qtype <= 65535)%Z ->
  fst (create_dns_query (domain ++ ".") qtype env st)
  = Returns (WireSpec.u16_be (0 + Z.of_N (entropy env (rng_reads st)) mod (65535 - 0 + 1))
               ++ WireSpec.u16_be 0x0100 ++ WireSpec.u16_be 1
               ++ WireSpec.u16_be 0 ++ WireSpec.u16_be 0 ++ WireSpec.u16_be 0
               ++ WireSpec.qname domain ++ [x00]
               ++ WireSpec.u16_be qtype ++ WireSpec.u16_be 1)%list.
Proof.
  intros Hlabels Hrange. rewrite create_dns_query_outcome, split_trailing_sep.
  rewrite forallb_app. cbn [forallb String.length Nat.leb andb].
  rewrite andb_true_r.
  replace (forallb _ _) with true.
  - replace (_ && _) with true.
    + unfold WireSpec.query, WireSpec.qname. rewrite split_trailing_sep.
      rewrite map_app, concat_app. cbn [map concat].
      unfold WireSpec.label at 2. cbn [String.length Byte.of_nat default list_byte_of_string].
      rewrite <- !app_assoc. reflexivity.
    + symmetry. apply andb_true_iff. split; apply Z.leb_le; lia.
  - symmetry. apply forallb_forall. intros l Hl.
    rewrite Forall_forall in Hlabels. apply Nat.leb_le, Hlabels.
    now apply list_elem_of_In.
Qed.

(** The query for "example.com.": a zero byte more than for "example.com". *)
Lemma create_dns_query_trailing_dot_example :
  fst (create_dns_query "example.com." 1 Samples.silent Samples.fresh)
  = Returns (WireSpec.u16_be 4464
               ++ WireSpec.u16_be 0x0100 ++ WireSpec.u16_be 1
               ++ WireSpec.u16_be 0 ++ WireSpec.u16_be 0 ++ WireSpec.u16_be 0
               ++ WireSpec.qname "example.com" ++ [x00]
               ++ WireSpec.u16_be 1 ++ WireSpec.u16_be 1)%list.
Proof.
  apply (create_dns_query_trailing_dot "example.com" 1 Samples.silent Samples.fresh).
  - repeat constructor; simpl; lia.
  - lia.
Defined.

Lemma create_dns_query_state domain qtype env st :
  snd (create_dns_query domain qtype env st)
  = {| open_sockets := open_sockets st; next_fd := next_fd st;
       clock_reads := clock_reads st; rng_reads := S (rng_reads st);
       trace := trace st |}.
Proof.
  unfold create_dns_query.
  cbv beta iota delta [mbind mret M_bind M_ret lift random_randint].
  destruct (Struct.pack_Hs _); [|reflexivity].
  destruct (qname_loop _ _); [|reflexivity].
  destruct (Struct.pack_Hs _); reflexivity.
Qed.

(** X5.  Building a query touches nothing outside: whatever the outcome, it
    takes one draw from the random generator, issues no event, and leaves
    the sockets and the clock as they were. *)
Theorem create_dns_query_effects
    (domain : string) (qtype : Z) (env : Env) (st : State) :
  let st' := snd (create_dns_query domain qtype env st) in
  issued st st' = []
  /\ open_sockets st' = open_sockets st
  /\ next_fd st' = next_fd st
  /\ clock_reads st' = clock_reads st
  /\ rng_reads st' = S (rng_reads st).
Proof.
  cbv zeta. rewrite create_dns_query_state. cbn.
  repeat split. unfold issued. cbn. apply drop_all.
Qed.

(** ** The DNS probe, on every path *)

(** Case analysis along the run of [check_dns]. *)
Ltac dns_cases :=
  repeat (run_probe; cbn [negb]; run_probe;
          match goal with
          | |- context [match record_types !! ?k with _ => _ end] =>
              destruct (record_types !! k) eqn:?
          | |- context [match os_socket ?e ?f ?t with _ => _ end] =>
              destruct (os_socket e f t) eqn:?
          | |- context [settimeout ?fd 3] => rewrite settimeout_3
          | |- context [create_dns_query ?d ?q ?e ?s] =>
              let H := fresh "Hst" in
              let st2 := fresh "st2" in
              pose proof (create_dns_query_state d q e s) as H;
              destruct (create_dns_query d q e s) as [[?|?] st2] eqn:?;
              cbn [snd] in H; subst st2
          | |- context [match os_sendto ?e ?q ?h ?p with _ => _ end] =>
              destruct (os_sendto e q h p) eqn:?
          | |- context [match os_recvfrom ?e with _ => _ end] =>
              destruct (os_recvfrom e) eqn:?
          | |- context [if (?a <? ?b)%nat then _ else _] =>
              destruct (a <? b)%nat eqn:?
          | |- context [match Struct.unpack_6H ?bs with _ => _ end] =>
              destruct (Struct.unpack_6H bs) as [[[[[[? ?] ?] ?] ?] ?]|?] eqn:?
          | |- context [if negb (?a =? ?b)%Z then _ else _] =>
              destruct (a =? b)%Z eqn:?
          | |- context [if (?a >? ?b)%Z then _ else _] =>
              destruct (a >? b)%Z eqn:?
          | |- context [match os_getaddrinfo ?e ?h with _ => _ end] =>
              destruct (os_getaddrinfo e h) eqn:?
          | |- context [if is_gaierror ?e then _ else _] =>
              destruct (is_gaierror e) eqn:?
          end);
  run_probe; cbn [negb]; run_probe.

(** X6.  [check_dns] never raises: every call returns a result that echoes
    the domain and the record type; a success carries no error and a
    timing, a failure carries an error, no record and no timing. *)
Theorem check_dns_result_shape (input : DNSCheckInput.t) (env : Env) (st : State) :
  exists r,
    fst (check_dns input env st) = Returns r
    /\ DnsResult.domain r = DNSCheckInput.domain input
    /\ DnsResult.record_type r = DNSCheckInput.record_type input
    /\ DnsResult.timestamp r = now_isoformat env
    /\ (if DnsResult.success r
        then DnsResult.error r = None /\ is_Some (DnsResult.response_time_ms r)
        else is_Some (DnsResult.error r)
             /\ DnsResult.records r = []
             /\ DnsResult.response_time_ms r = None).
Proof.
  destruct st as [socks nfd creads rreads tr].
  unfold check_dns. dns_cases.
  all: eexists; split; [reflexivity|]; cbn; repeat split; eauto.
Qed.

Lemma wanted_family_true rt addr :
  wanted_family rt addr = true ->
  rt = "A" /\ ai_family addr = AF_INET \/ rt = "AAAA" /\ ai_family addr = AF_INET6.
Proof.
  destruct addr as [fam host]. unfold wanted_family. cbn.
  destruct (String.eqb_spec rt "A"), (String.eqb_spec rt "AAAA"), fam;
    cbn; intros; try discriminate; auto.
Qed.

Lemma filter_wanted_other rt addrs :
  rt <> "A" -> rt <> "AAAA" -> List.filter (wanted_family rt) addrs = [].
Proof.
  intros HA HAAAA. induction addrs as [|addr addrs IH]; [reflexivity|].
  cbn. destruct (wanted_family rt addr) eqn:Hw; [|exact IH].
  apply wanted_family_true in Hw as [[? _]|[? _]]; contradiction.
Qed.

(** X7.  The records of a result hold no duplicate; each is the host of an
    entry that [getaddrinfo] returned for the domain, of family AF_INET for
    record type A and AF_INET6 for AAAA; for every other record type, MX and
    CNAME among them, the record list is empty. *)
Theorem check_dns_records
    (input : DNSCheckInput.t) (env : Env) (st : State) (r : DnsResult.t) :
  fst (check_dns input env st) = Returns r ->
  List.NoDup (DnsResult.records r)
  /\ (forall host, In host (DnsResult.records r) ->
        exists addrs addr,
          os_getaddrinfo env (DNSCheckInput.domain input) = Returns addrs
          /\ In addr addrs
          /\ ai_host addr = host
          /\ (DNSCheckInput.record_type input = "A" /\ ai_family addr = AF_INET
              \/ DNSCheckInput.record_type input = "AAAA"
                 /\ ai_family addr = AF_INET6))
  /\ (DNSCheckInput.record_type input <> "A" ->
      DNSCheckInput.record_type input <> "AAAA" ->
      DnsResult.records r = []).
Proof.
  pose proof wanted_family_true as Hwanted.
  destruct st as [socks nfd creads rreads tr].
  unfold check_dns. dns_cases.
  all: intros [= <-]; cbn [DnsResult.records].
  all: try (split; [constructor|split; [intros ? []|reflexivity]]).
  split; [apply NoDup_ListNoDup; unfold dedup; apply NoDup_remove_dups|split].
  - intros host Hin. unfold dedup in Hin.
    rewrite <- list_elem_of_In, elem_of_remove_dups, list_elem_of_In in Hin.
    apply in_map_iff in Hin as (addr & Hhost & Haddr).
    apply filter_In in Haddr as [Haddr Hfam].
    eexists _, addr. repeat split; eauto.
  - intros HA HAAAA. now rewrite filter_wanted_other.
Qed.

(** Two entries with one IPv4 host and one IPv6 entry: record type A keeps
    the IPv4 host once. *)
Lemma check_dns_records_example :
  exists r,
    fst (check_dns (Samples.dns_input "example.com" "A")
           MoreSamples.dual_stack Samples.fresh) = Returns r
    /\ DnsResult.records r = ["93.184.216.34"]
    /\ List.NoDup (DnsResult.records r).
Proof.
  eexists. split; [reflexivity|]. split; [reflexivity|].
  exact (proj1 (check_dns_records (Samples.dns_input "example.com" "A")
                  MoreSamples.dual_stack Samples.fresh _ eq_refl)).
Defined.

(** X8.  An unsupported record type is turned down before anything is
    done: the result is a failure naming the type, and the call opens no
    socket, draws no random number, reads no clock and issues no event. *)
Theorem check_dns_unsupported_type (input : DNSCheckInput.t) (env : Env) (st : State) :
  record_types !! DNSCheckInput.record_type input = None ->
  check_dns input env st
  = (Returns {| DnsResult.success := false;
                DnsResult.domain := DNSCheckInput.domain input;
                DnsResult.record_type := DNSCheckInput.record_type input;
                DnsResult.records := [];
                DnsResult.response_time_ms := None;
                DnsResult.timestamp := now_isoformat env;
                DnsResult.error :=
                  Some ("Unsupported record type: "
                          ++ DNSCheckInput.record_type input) |},
     st).
Proof. intros Hrt. unfold check_dns. rewrite Hrt. reflexivity. Qed.

(** The type name is matched as it is written: "a" is not "A". *)
Lemma check_dns_lower_case_type_example :
  check_dns (Samples.dns_input "example.com" "a") MoreSamples.dual_stack Samples.fresh
  = (Returns {| DnsResult.success := false;
                DnsResult.domain := "example.com";
                DnsResult.record_type := "a";
                DnsResult.records := [];
                DnsResult.response_time_ms := None;
                DnsResult.timestamp := "2025-01-01T00:00:00";
                DnsResult.error := Some "Unsupported record type: a" |},
     Samples.fresh).
Proof.
  apply (check_dns_unsupported_type (Samples.dns_input "example.com" "a")
           MoreSamples.dual_stack Samples.fresh).
  reflexivity.
Defined.

Lemma datagrams_sent_app tr1 tr2 :
  datagrams_sent (tr1 ++ tr2) = (datagrams_sent tr1 ++ datagrams_sent tr2)%list.
Proof.
  induction tr1 as [|ev tr1 IH]; [reflexivity|].
  destruct ev; cbn; now rewrite IH.
Qed.

(** X9.  [check_dns] sends at most one datagram, and that one goes to port
    53 of the given nameserver and is the query that [create_dns_query]
    builds for the domain and the code of the record type. *)
Theorem check_dns_sends_one_query (input : DNSCheckInput.t) (env : Env) (st : State) :
  datagrams_sent (issued st (snd (check_dns input env st))) = []
  \/ exists qtype,
       record_types !! DNSCheckInput.record_type input = Some qtype
       /\ datagrams_sent (issued st (snd (check_dns input env st)))
          = [(WireSpec.query
                (0 + Z.of_N (entropy env (rng_reads st)) mod (65535 - 0 + 1))
                (DNSCheckInput.domain input) qtype,
              DNSCheckInput.nameserver input, 53%Z)].
Proof.
  destruct st as [socks nfd creads rreads tr].
  unfold check_dns. dns_cases.
  all: issued_events; rewrite ?drop_all; cbn [datagrams_sent]; auto.
  all: right; eexists; split; [reflexivity|].
  all: match goal with
       | H : create_dns_query ?d ?q ?e ?s = (Returns ?a, _) |- _ =>
           pose proof (create_dns_query_outcome d q e s) as Hout;
           rewrite H in Hout; cbn [fst rng_reads] in Hout;
           destruct (forallb _ _); [|discriminate Hout];
           destruct (_ && _); [|discriminate Hout];
           injection Hout as ->
       end.
  all: reflexivity.
Qed.

(** ** The DNS probe, once a reply has arrived *)

(** What [check_dns] returns when a reply arrives, read off the reply. *)
Lemma check_dns_reply_outcome input env st data :
  is_Some (record_types !! DNSCheckInput.record_type input) ->
  os_socket env AF_INET SOCK_DGRAM = None ->
  Forall (fun label => String.length label <= 255)
         (PyStr.split "." (DNSCheckInput.domain input)) ->
  (forall query, os_sendto env query (DNSCheckInput.nameserver input) 53 = None) ->
  os_recvfrom env = Returns data ->
  let failure msg :=
    {| DnsResult.success := false;
       DnsResult.domain := DNSCheckInput.domain input;
       DnsResult.record_type := DNSCheckInput.record_type input;
       DnsResult.records := [];
       DnsResult.response_time_ms := None;
       DnsResult.timestamp := now_isoformat env;
       DnsResult.error := Some msg |} in
  let success records :=
    {| DnsResult.success := true;
       DnsResult.domain := DNSCheckInput.domain input;
       DnsResult.record_type := DNSCheckInput.record_type input;
       DnsResult.records := dedup records;
       DnsResult.response_time_ms :=
         Some (round2 ((clock env (S (clock_reads st))
                        - clock env (clock_reads st)) * 1000));
       DnsResult.timestamp := now_isoformat env;
       DnsResult.error := None |} in
  fst (check_dns input env st)
  = Returns
      (if (List.length (take 512 data) <? 12)%nat then failure "Response too short"
       else match Struct.unpack_6H (take 12 (take 512 data)) with
            | Raises e => failure (exc_str e)
            | Returns (_, flags, _, ancount, _, _) =>
                if negb (Z.land flags 0x000F =? 0)%Z then
                  failure ("DNS response code: " ++ PyStr.of_Z (Z.land flags 0x000F))
                else if (ancount >? 0)%Z then
                  match os_getaddrinfo env (DNSCheckInput.domain input) with
                  | Returns addrs =>
                      success (map ai_host
                                 (List.filter
                                    (wanted_family (DNSCheckInput.record_type input))
                                    addrs))
                  | Raises e => if is_gaierror e then success [] else failure (exc_str e)
                  end
                else success []
            end).
Proof.
  intros [qtype Hrt] Hsocket Hlabels Hsent Hreply failure success.
  subst failure success.
  destruct st as [socks nfd creads rreads tr].
  unfold check_dns. rewrite Hrt. run_probe. rewrite Hsocket. run_probe.
  rewrite settimeout_3. run_probe.
  rewrite (create_dns_query_run _ _ _ _ _ Hrt Hlabels). run_probe.
  rewrite Hsent, Hreply.
  dns_cases; reflexivity.
Qed.

(** X10.  Of a reply, [check_dns] reads the response code and whether the
    answer count is positive, and nothing else: two replies of at least 12
    bytes that agree on these two give the same result, whatever their
    transaction ids, their response bits, their other flags and counts and
    what follows the header.  So the transaction id of a reply is never
    compared with that of the query, and a datagram that is no response at
    all is taken for one. *)
Theorem check_dns_reads_rcode_and_answer_count
    (input : DNSCheckInput.t) (env : Env) (st : State)
    (data1 data2 : list byte)
    (id1 flags1 qd1 an1 ns1 ar1 id2 flags2 qd2 an2 ns2 ar2 : Z) :
  is_Some (record_types !! DNSCheckInput.record_type input) ->
  os_socket env AF_INET SOCK_DGRAM = None ->
  Forall (fun label => String.length label <= 255)
         (PyStr.split "." (DNSCheckInput.domain input)) ->
  (forall query, os_sendto env query (DNSCheckInput.nameserver input) 53 = None) ->
  Struct.unpack_6H (take 12 (take 512 data1))
    = Returns (id1, flags1, qd1, an1, ns1, ar1) ->
  Struct.unpack_6H (take 12 (take 512 data2))
    = Returns (id2, flags2, qd2, an2, ns2, ar2) ->
  Z.land flags1 0x000F = Z.land flags2 0x000F ->
  (an1 >? 0)%Z = (an2 >? 0)%Z ->
  fst (check_dns input (Samples.with_reply data1 env) st)
  = fst (check_dns input (Samples.with_reply data2 env) st).
Proof.
  intros Hrt Hsocket Hlabels Hsent Hhdr1 Hhdr2 Hrcode Hanswers.
  rewrite (check_dns_reply_outcome input (Samples.with_reply data1 env) st data1
             Hrt Hsocket Hlabels Hsent eq_refl).
  rewrite (check_dns_reply_outcome input (Samples.with_reply data2 env) st data2
             Hrt Hsocket Hlabels Hsent eq_refl).
  rewrite (unpack_6H_take_long _ _ Hhdr1), Hhdr1.
  rewrite (unpack_6H_take_long _ _ Hhdr2), Hhdr2.
  rewrite Hrcode, Hanswers. reflexivity.
Qed.

(** Two replies to the query for "example.com", whose transaction id is
    4464: a well-formed response, and a datagram with transaction id 1, the
    response bit clear and two questions. *)
Lemma check_dns_reads_rcode_and_answer_count_example :
  fst (check_dns (Samples.dns_input "example.com" "A")
         (Samples.with_reply
            ["017"; "p"; "129"; "128"; "000"; "001"; "000"; "000";
             "000"; "000"; "000"; "000"]%byte Samples.silent)
         Samples.fresh)
  = fst (check_dns (Samples.dns_input "example.com" "A")
           (Samples.with_reply
              ["000"; "001"; "001"; "000"; "000"; "002"; "000"; "000";
               "000"; "000"; "000"; "000"; "255"]%byte Samples.silent)
           Samples.fresh).
Proof.
  apply (check_dns_reads_rcode_and_answer_count
           (Samples.dns_input "example.com" "A") Samples.silent Samples.fresh
           ["017"; "p"; "129"; "128"; "000"; "001"; "000"; "000";
            "000"; "000"; "000"; "000"]%byte
           ["000"; "001"; "001"; "000"; "000"; "002"; "000"; "000";
            "000"; "000"; "000"; "000"; "255"]%byte
           4464 33152 1 0 0 0 1 256 2 0 0 0).
  - exists 1%Z. reflexivity.
  - reflexivity.
  - repeat constructor; simpl; lia.
  - reflexivity.
  - reflexivity.
  - reflexivity.
  - reflexivity.
  - reflexivity.
Defined.

Lemma filter_out_fresh_fd n l :
  Forall (fun fd => fd < n) l ->
  List.filter (fun s => negb (s =? n)%nat) (n :: l) = l.
Proof.
  intros H. cbn. rewrite Nat.eqb_refl. cbn.
  induction H as [|x l Hx _ IH]; [reflexivity|].
  cbn. destruct (Nat.eqb_spec x n); [lia|]. cbn. now rewrite IH.
Qed.

(** X11.  Once a reply has arrived, whatever it holds, the socket of the
    call is closed when [check_dns] returns: the open sockets are those that
    were open before the call. *)
Theorem check_dns_reply_restores_sockets
    (input : DNSCheckInput.t) (env : Env) (st : State) (data : list byte) :
  fresh_next_fd st ->
  is_Some (record_types !! DNSCheckInput.record_type input) ->
  os_socket env AF_INET SOCK_DGRAM = None ->
  Forall (fun label => String.length label <= 255)
         (PyStr.split "." (DNSCheckInput.domain input)) ->
  (forall query, os_sendto env query (DNSCheckInput.nameserver input) 53 = None) ->
  os_recvfrom env = Returns data ->
  open_sockets (snd (check_dns input env st)) = open_sockets st.
Proof.
  intros Hfresh Hsupported Hsocket Hlabels Hsent Hreply.
  rewrite (check_dns_reply_closes_socket input env st data
             Hsupported Hsocket Hlabels Hsent Hreply).
  now apply filter_out_fresh_fd.
Qed.

(** A short reply: the call fails, and leaves no socket open. *)
Lemma check_dns_reply_restores_sockets_example :
  open_sockets
    (snd (check_dns (Samples.dns_input "example.com" "A")
            (Samples.with_reply ["001"; "002"; "003"]%byte Samples.silent)
            Samples.fresh))
  = [].
Proof.
  apply (check_dns_reply_restores_sockets (Samples.dns_input "example.com" "A")
           (Samples.with_reply ["001"; "002"; "003"]%byte Samples.silent)
           Samples.fresh ["001"; "002"; "003"]%byte).
  - constructor.
  - exists 1%Z. reflexivity.
  - reflexivity.
  - repeat constructor; simpl; lia.
  - reflexivity.
  - reflexivity.
Defined.

(** ** The TCP port probe *)

(** Case analysis along the run of [check_port]. *)
Ltac port_cases :=
  unfold check_port, settimeout;
  repeat (run_probe;
          match goal with
          | |- context [match os_socket ?e ?f ?t with _ => _ end] =>
              destruct (os_socket e f t) eqn:?
          | |- context [if (?a <? ?b)%Z || (?c <=? ?d)%Z then _ else _] =>
              destruct ((a <? b)%Z || (c <=? d)%Z) eqn:?
          | |- context [if (timeout_ns ?v <? 0)%Z then _ else _] =>
              destruct (timeout_ns v <? 0)%Z eqn:?
          | |- context [match os_connect_ex ?e ?h ?p with _ => _ end] =>
              destruct (os_connect_ex e h p) eqn:?
          end);
  run_probe.

(** X12.  When [connect_ex] returns, its code alone decides the result:
    code 0 is a success, every other code (a refusal as well as a timeout
    reported through the code) is a failure with the error
    "Port <port> is closed"; a response time is reported in both cases, one
    connection was tried, and the socket of the call is closed.  The timeout
    is one that [settimeout] takes: from 0 to 9223372036 seconds. *)
Theorem check_port_connect_returns
    (input : PortCheckInput.t) (env : Env) (st : State) (code : Z) :
  fresh_next_fd st ->
  os_socket env AF_INET SOCK_STREAM = None ->
  (0 <= PortCheckInput.timeout input <= 9223372036)%Q ->
  os_connect_ex env (PortCheckInput.host input) (PortCheckInput.port input)
    = Returns code ->
  exists r,
    fst (check_port input env st) = Returns r
    /\ PortResult.success r = (code =? 0)%Z
    /\ PortResult.host r = PortCheckInput.host input
    /\ PortResult.port r = PortCheckInput.port input
    /\ is_Some (PortResult.response_time_ms r)
    /\ PortResult.timestamp r = now_isoformat env
    /\ PortResult.error r
       = (if (code =? 0)%Z then None
          else Some ("Port " ++ PyStr.of_Z (PortCheckInput.port input)
                       ++ " is closed"))
    /\ connections_tried (issued st (snd (check_port input env st)))
       = [(PortCheckInput.host input, PortCheckInput.port input)]
    /\ open_sockets (snd (check_port input env st)) = open_sockets st.
Proof.
  intros Hfresh Hsocket Htimeout Hconnect.
  destruct st as [socks nfd creads rreads tr].
  unfold check_port. run_probe. rewrite Hsocket. run_probe.
  rewrite (settimeout_accepts _ _ Htimeout). run_probe.
  rewrite Hconnect. run_probe.
  eexists. split; [reflexivity|]. cbn.
  repeat (split; [try reflexivity; eauto|]).
  - issued_events. reflexivity.
  - now apply filter_out_fresh_fd.
Qed.

(** A connection refused (code 111) on port 8080. *)
Lemma check_port_refused_example :
  exists r,
    fst (check_port {| PortCheckInput.host := "192.0.2.1";
                       PortCheckInput.port := 8080;
                       PortCheckInput.timeout := 3 |}
           MoreSamples.refusing Samples.fresh) = Returns r
    /\ PortResult.success r = false
    /\ PortResult.host r = "192.0.2.1"
    /\ PortResult.port r = 8080%Z
    /\ is_Some (PortResult.response_time_ms r)
    /\ PortResult.timestamp r = "2025-01-01T00:00:00"
    /\ PortResult.error r = Some "Port 8080 is closed"
    /\ connections_tried
         (issued Samples.fresh
            (snd (check_port {| PortCheckInput.host := "192.0.2.1";
                                PortCheckInput.port := 8080;
                                PortCheckInput.timeout := 3 |}
                    MoreSamples.refusing Samples.fresh)))
       = [("192.0.2.1", 8080%Z)]
    /\ open_sockets
         (snd (check_port {| PortCheckInput.host := "192.0.2.1";
                             PortCheckInput.port := 8080;
                             PortCheckInput.timeout := 3 |}
                 MoreSamples.refusing Samples.fresh))
       = open_sockets Samples.fresh.
Proof.
  apply (check_port_connect_returns
           {| PortCheckInput.host := "192.0.2.1";
              PortCheckInput.port := 8080;
              PortCheckInput.timeout := 3 |}
           MoreSamples.refusing Samples.fresh 111).
  - constructor.
  - reflexivity.
  - split; discriminate.
  - reflexivity.
Defined.



(** X14.  [check_port] never raises: every call returns a result that echoes
    host and port; it reports success exactly when it reports no error, and
    a success carries a timing. *)
Theorem check_port_result_shape (input : PortCheckInput.t) (env : Env) (st : State) :
  exists r,
    fst (check_port input env st) = Returns r
    /\ PortResult.host r = PortCheckInput.host input
    /\ PortResult.port r = PortCheckInput.port input
    /\ PortResult.timestamp r = now_isoformat env
    /\ (PortResult.success r = true <-> PortResult.error r = None)
    /\ (PortResult.success r = true -> is_Some (PortResult.response_time_ms r)).
Proof.
  destruct st as [socks nfd creads rreads tr].
  port_cases.
  all: eexists; split; [reflexivity|]; cbn; repeat split; eauto;
    try discriminate.
  all: destruct (_ =? _)%Z; intros; (discriminate || reflexivity).
Qed.

(** ** The image reference resolver, in general *)

Lemma has_char_app c s t :
  PyStr.has_char c (s ++ t) = PyStr.has_char c s || PyStr.has_char c t.
Proof.
  induction s as [|d s IH]; [reflexivity|].
  simpl. rewrite IH. now rewrite orb_assoc.
Qed.

(** Splitting once at the first separator. *)
Lemma split_max_first sep a b :
  PyStr.has_char sep a = false ->
  PyStr.split_max sep (a ++ String sep b) 1 = [a; b].
Proof.
  induction a as [|c a IH]; simpl.
  - intros _. rewrite Ascii.eqb_refl. now destruct b.
  - destruct (Ascii.eqb c sep) eqn:E; simpl; [discriminate|].
    intros H. cbn in IH. now rewrite (IH H).
Qed.

Lemma split_max_one_inv sep s a b :
  PyStr.split_max sep s 1 = [a; b] ->
  PyStr.has_char sep a = false /\ s = a ++ String sep b.
Proof.
  revert a. induction s as [|c r IH]; intros a; simpl; [discriminate|].
  destruct (Ascii.eqb_spec c sep) as [->|Hne].
  - destruct r; intros [= <- <-]; auto.
  - destruct (PyStr.split_max sep r 1) as [|h [|h' [|? ?]]] eqn:Hr;
      try discriminate.
    intros [= <- <-]. destruct (IH h eq_refl) as [Hh ->].
    simpl. apply Ascii.eqb_neq in Hne. rewrite Hne. auto.
Qed.

(** Joining the pieces of a split gives the string back. *)
Lemma join_split sep s :
  PyStr.join (String sep "") (PyStr.split sep s) = s.
Proof.
  unfold PyStr.join. induction s as [|c r IH]; [reflexivity|].
  simpl PyStr.split. destruct (Ascii.eqb_spec c sep) as [->|Hne].
  - destruct (PyStr.split sep r) as [|h t] eqn:Hr;
      [now apply split_not_nil in Hr|].
    change (String.concat (String sep "") ("" :: h :: t))
      with (String sep (String.concat (String sep "") (h :: t))).
    now rewrite IH.
  - destruct (PyStr.split sep r) as [|h t] eqn:Hr;
      [now apply split_not_nil in Hr|].
    destruct t as [|x xs].
    + cbn in IH |- *. now rewrite IH.
    + change (String.concat (String sep "") (String c h :: x :: xs))
        with (String c (String.concat (String sep "") (h :: x :: xs))).
      now rewrite IH.
Qed.

Lemma split_after_first sep a rest :
  PyStr.has_char sep a = false ->
  PyStr.split sep (a ++ String sep rest) = a :: PyStr.split sep rest.
Proof.
  induction a as [|c a IH]; simpl.
  - intros _. now rewrite Ascii.eqb_refl.
  - destruct (Ascii.eqb c sep) eqn:E; simpl; [discriminate|].
    intros H. now rewrite (IH H).
Qed.


Lemma no_slash_no_scheme s :
  PyStr.has_char "/" s = false ->
  PyStr.startswith "https://" s = false /\ PyStr.startswith "http://" s = false.
Proof.
  intros Hs. split; apply not_true_iff_false; intros Hp;
    apply (startswith_has_char "/") in Hp; try reflexivity; congruence.
Qed.

(** X15.  A reference written as registry "/" repository ":" tag, with a
    registry that holds a dot and no slash and a repository that holds no
    colon, is read back part by part; the repository gets the prefix
    "library/" only for the Docker Hub host and a repository without
    slash.  The tag may hold any character. *)
Theorem parse_image_name_round_trip (reg repo tg : string) :
  PyStr.has_char "/" reg = false ->
  PyStr.has_char "." reg = true ->
  PyStr.has_char ":" repo = false ->
  _parse_image_name (reg ++ "/" ++ repo ++ ":" ++ tg) None
  = Returns {| ImageReference.registry := reg;
               ImageReference.repository :=
                 if String.eqb reg default_registry && negb (PyStr.has_char "/" repo)
                 then "library/" ++ repo else repo;
               ImageReference.tag := tg |}.
Proof.
  intros Hslash Hdot Hcolon.
  destruct (no_slash_no_scheme _ Hslash) as [Hhttps Hhttp].
  unfold _parse_image_name. cbn [truthy_opt_str].
  change (reg ++ "/" ++ repo ++ ":" ++ tg) with (reg ++ String "/" (repo ++ String ":" tg)).
  rewrite (split_after_first _ _ _ Hslash).
  cbn [index0 mbind outcome_bind List.length List.tl].
  rewrite Hdot.
  destruct (PyStr.split "/" (repo ++ String ":" tg)) as [|h t] eqn:Hs;
    [now apply split_not_nil in Hs|].
  cbn [List.length Nat.ltb Nat.leb andb]. rewrite <- Hs, join_split.
  cbn [mbind outcome_bind]. rewrite Hhttps, Hhttp.
  rewrite has_char_app, Hcolon. cbn [PyStr.has_char orb negb].
  rewrite Ascii.eqb_refl. cbn [orb negb].
  rewrite (split_max_first _ _ _ Hcolon). reflexivity.
Qed.

Lemma parse_image_name_round_trip_example :
  _parse_image_name "ghcr.io/owner/app:1.2.3" None
  = Returns {| ImageReference.registry := "ghcr.io";
               ImageReference.repository := "owner/app";
               ImageReference.tag := "1.2.3" |}.
Proof.
  apply (parse_image_name_round_trip "ghcr.io" "owner/app" "1.2.3"); reflexivity.
Defined.



(** The repository of a result, from the image name left by the first half
    of [_parse_image_name]. *)
Lemma parse_image_name_repository image_name registry_override ref :
  _parse_image_name image_name registry_override = Returns ref ->
  exists repo,
    PyStr.has_char ":" repo = false
    /\ ImageReference.repository ref
       = (if String.eqb (ImageReference.registry ref) default_registry
             && negb (PyStr.has_char "/" repo)
          then "library/" ++ repo else repo).
Proof.
  unfold _parse_image_name.
  assert (Hsecond : forall (raw name : string),
    ('(repository, tag) ←
         (if negb (PyStr.has_char ":" name) then Returns (name, "latest")
          else unpack2 (PyStr.split_max ":" name 1));
       let reg' :=
         if PyStr.startswith "https://" raw then PyStr.drop (String.length "https://") raw
         else if PyStr.startswith "http://" raw then PyStr.drop (String.length "http://") raw
         else raw in
       let repository :=
         if String.eqb reg' default_registry && negb (PyStr.has_char "/" repository)
         then "library/" ++ repository else repository in
       Returns {| ImageReference.registry := reg';
                  ImageReference.repository := repository;
                  ImageReference.tag := tag |}) = Returns ref ->
    exists repo,
      PyStr.has_char ":" repo = false
      /\ ImageReference.repository ref
         = (if String.eqb (ImageReference.registry ref) default_registry
               && negb (PyStr.has_char "/" repo)
            then "library/" ++ repo else repo)).
  { intros raw name. destruct (PyStr.has_char ":" name) eqn:Hc; cbn [negb].
    - destruct (split_max_one _ _ Hc) as (a & b & Hab). rewrite Hab.
      apply split_max_one_inv in Hab as [Ha _].
      cbn. intros [= <-]. exists a. split; [exact Ha|reflexivity].
    - cbn. intros [= <-]. exists name. split; [exact Hc|reflexivity]. }
  destruct (truthy_opt_str registry_override).
  - cbn [mbind outcome_bind]. apply Hsecond.
  - destruct (PyStr.split "/" image_name) as [|p0 rest] eqn:Hs;
      [now apply split_not_nil in Hs|].
    cbn [index0 mbind outcome_bind].
    destruct (_ && _); [apply Hsecond|].
    destruct (_ && _); apply Hsecond.
Qed.

(** X17.  Two facts hold of every reference the resolver returns: the
    repository holds no colon, and under the Docker Hub host the repository
    holds a slash, the single names having been put under "library/". *)
Theorem parse_image_name_repository_shape
    (image_name : string) (registry_override : option string)
    (ref : ImageReference.t) :
  _parse_image_name image_name registry_override = Returns ref ->
  PyStr.has_char ":" (ImageReference.repository ref) = false
  /\ (ImageReference.registry ref = default_registry ->
      PyStr.has_char "/" (ImageReference.repository ref) = true).
Proof.
  intros H. apply parse_image_name_repository in H as (repo & Hcolon & ->).
  split.
  - destruct (_ && _); [|exact Hcolon].
    change ("library/" ++ repo) with ("library/" ++ repo)%string.
    rewrite has_char_app, Hcolon. reflexivity.
  - intros ->. rewrite String.eqb_refl. cbn [andb].
    destruct (PyStr.has_char "/" repo) eqn:Hslash; cbn [negb]; [exact Hslash|].
    rewrite has_char_app. reflexivity.
Qed.

Lemma parse_image_name_repository_shape_example :
  PyStr.has_char ":" "library/redis" = false
  /\ ("registry-1.docker.io" = default_registry ->
      PyStr.has_char "/" "library/redis" = true).
Proof.
  apply (parse_image_name_repository_shape "redis:7" None
           {| ImageReference.registry := "registry-1.docker.io";
              ImageReference.repository := "library/redis";
              ImageReference.tag := "7" |}).
  reflexivity.
Defined.

(** X18.  The registry of a result starts with a scheme only when an
    override is given that itself starts with a scheme and, that one
    removed, starts with a scheme again.  No image name alone, and no
    override with a single scheme prefix, leaves a scheme on the registry. *)
Theorem parse_image_name_scheme_needs_stacked_override
    (image_name : string) (registry_override : option string)
    (ref : ImageReference.t) :
  _parse_image_name image_name registry_override = Returns ref ->
  PyStr.startswith "https://" (ImageReference.registry ref) = true
  \/ PyStr.startswith "http://" (ImageReference.registry ref) = true ->
  exists raw n,
    registry_override = Some raw
    /\ (PyStr.startswith "https://" raw = true /\ n = 8
        \/ PyStr.startswith "https://" raw = false
           /\ PyStr.startswith "http://" raw = true /\ n = 7)
    /\ ImageReference.registry ref = PyStr.drop n raw.
Proof.
  intros H Hscheme.
  apply parse_image_name_registry in H as (raw & Hreg & Hraw).
  assert (Hclean : PyStr.startswith "https://" raw = false ->
                   PyStr.startswith "http://" raw = false -> False).
  { intros H1 H2. rewrite H1, H2 in Hreg. rewrite Hreg in Hscheme.
    destruct Hscheme; congruence. }
  destruct Hraw as [Hover | [-> | [rest Hsplit]]].
  - exists raw.
    destruct (PyStr.startswith "https://" raw) eqn:H1.
    + exists 8. auto.
    + destruct (PyStr.startswith "http://" raw) eqn:H2.
      * exists 7. auto 6.
      * now destruct Hclean.
  - now destruct Hclean.
  - apply split_head_no_sep in Hsplit.
    destruct (no_slash_no_scheme _ Hsplit). now destruct Hclean.
Qed.

Lemma parse_image_name_scheme_needs_stacked_override_example :
  exists raw n,
    Some "http://https://registry.example.com" = Some raw
    /\ (PyStr.startswith "https://" raw = true /\ n = 8
        \/ PyStr.startswith "https://" raw = false
           /\ PyStr.startswith "http://" raw = true /\ n = 7)
    /\ "https://registry.example.com" = PyStr.drop n raw.
Proof.
  apply (parse_image_name_scheme_needs_stacked_override "nginx"
           (Some "http://https://registry.example.com")
           {| ImageReference.registry := "https://registry.example.com";
              ImageReference.repository := "nginx";
              ImageReference.tag := "latest" |}).
  - reflexivity.
  - left. reflexivity.
Defined.

(** ** The registry manifest probe, further *)

(** X19.  [_check_image_manifest_sync] raises for no input and no answer of
    the network.  A result it returns echoes the image name, carries the
    resolved registry, and has one of three shapes: success with status code
    200 and no error; failure with status code 404 and an error; failure
    with a null status code and an error.  It returns no result at all only
    after a manifest response whose status is neither 200 nor 404 nor in
    400..599. *)
Theorem manifest_probe_result_shape
    (image_name : string) (registry : option string) (timeout : Q)
    (env : Env) (st : State) :
  let run := _check_image_manifest_sync image_name registry timeout env st in
  exists ref o,
    _parse_image_name image_name registry = Returns ref
    /\ fst run = Returns o
    /\ match o with
       | Some r =>
           ManifestResult.image_name r = image_name
           /\ ManifestResult.registry r = ImageReference.registry ref
           /\ (ManifestResult.success r = true
               /\ ManifestResult.status_code r = Some 200%Z
               /\ ManifestResult.error r = None
               \/ ManifestResult.success r = false
                  /\ ManifestResult.status_code r = Some 404%Z
                  /\ is_Some (ManifestResult.error r)
               \/ ManifestResult.success r = false
                  /\ ManifestResult.status_code r = None
                  /\ is_Some (ManifestResult.error r))
       | None =>
           exists req resp,
             last (trace (snd run)) = Some (EvHttp req)
             /\ req_method req = "HEAD"
             /\ http env req = Returns resp
             /\ resp_status_code resp <> 200%Z
             /\ resp_status_code resp <> 404%Z
             /\ ~ (400 <= resp_status_code resp < 600)%Z
       end.
Proof.
  intros run. subst run. destruct st as [socks nfd creads rreads tr].
  destruct (parse_image_name_returns image_name registry) as [ref Href].
  exists ref. unfold _check_image_manifest_sync. rewrite Href.
  manifest_cases.
  all: eexists; (split; [reflexivity|]); (split; [reflexivity|]); cbn.
  all: try (split; [reflexivity|]; split; [reflexivity|]).
  all: try (match goal with H : _ = 200%Z |- _ => rewrite H end).
  all: try (match goal with H : _ = 404%Z |- _ => rewrite H end).
  all: try (left; repeat split; reflexivity).
  all: try (right; left; repeat split; eauto; reflexivity).
  all: try (right; right; repeat split; eauto; reflexivity).
  all: eexists _, _; rewrite last_snoc.
  all: (split; [reflexivity|]); (split; [reflexivity|]).
  all: (split; [eassumption|]); (split; [assumption|]); (split; [assumption|]).
  all: status_facts; lia.
Qed.

(** X20.  The requests of a run of the probe, in order: for a registry that
    is not Docker Hub or a mirror, the manifest request alone, without a
    token; otherwise the token request, followed by the manifest request
    only when the token response arrived, passed [raise_for_status] and
    decoded to a JSON object, the manifest request then carrying that
    object's [token] value.  Nothing else is issued, and no socket is
    opened. *)
Theorem manifest_probe_requests
    (image_name : string) (registry : option string) (timeout : Q)
    (env : Env) (st : State) (ref : ImageReference.t) :
  let run := _check_image_manifest_sync image_name registry timeout env st in
  _parse_image_name image_name registry = Returns ref ->
  open_sockets (snd run) = open_sockets st
  /\ issued st (snd run)
     = if is_docker_hub_or_mirror (ImageReference.registry ref) then
         EvHttp (token_request ref timeout)
         :: match http env (token_request ref timeout) with
            | Returns tresp =>
                match raise_for_status tresp, resp_json tresp with
                | Returns _, Returns (JDict d) =>
                    [EvHttp (manifest_request ref (default PyNone (d !! "token")) timeout)]
                | _, _ => []
                end
            | Raises _ => []
            end
       else [EvHttp (manifest_request ref PyNone timeout)].
Proof.
  intros run Href. subst run. destruct st as [socks nfd creads rreads tr].
  unfold _check_image_manifest_sync, token_request, manifest_request.
  rewrite Href.
  manifest_cases.
  all: split; [reflexivity|].
  all: issued_events; reflexivity.
Qed.

Lemma manifest_probe_requests_example :
  let ref := {| ImageReference.registry := "myregistry.com";
                ImageReference.repository := "myimage";
                ImageReference.tag := "v2" |} in
  let env := Samples.registry_world
               (Returns (Samples.response 200 "OK" Samples.no_json))
               (Returns (Samples.response 200 "OK" Samples.no_json)) in
  let run := _check_image_manifest_sync "myregistry.com/myimage:v2" None 30
               env Samples.fresh in
  open_sockets (snd run) = open_sockets Samples.fresh
  /\ issued Samples.fresh (snd run)
     = if is_docker_hub_or_mirror (ImageReference.registry ref) then
         EvHttp (token_request ref 30)
         :: match http env (token_request ref 30) with
            | Returns tresp =>
                match raise_for_status tresp, resp_json tresp with
                | Returns _, Returns (JDict d) =>
                    [EvHttp (manifest_request ref (default PyNone (d !! "token")) 30)]
                | _, _ => []
                end
            | Raises _ => []
            end
       else [EvHttp (manifest_request ref PyNone 30)].
Proof.
  apply (manifest_probe_requests "myregistry.com/myimage:v2" None 30).
  reflexivity.
Defined.

(** X21.  When the token response passes [raise_for_status] and its JSON
    object has a [token] field, the manifest request is a HEAD request to
    the manifest URL of the resolved reference with the [Accept] header, and
    it carries "Bearer <token>" as [Authorization] exactly when the token
    value is truthy: an empty string, [null], [false] or 0 is sent as no
    header at all. *)
Theorem manifest_probe_bearer_token
    (image_name : string) (registry : option string) (timeout : Q)
    (env : Env) (st : State) (ref : ImageReference.t)
    (tresp : Response) (d : gmap string pyval) (v : pyval) :
  let run := _check_image_manifest_sync image_name registry timeout env st in
  _parse_image_name image_name registry = Returns ref ->
  is_docker_hub_or_mirror (ImageReference.registry ref) = true ->
  http env (token_request ref timeout) = Returns tresp ->
  raise_for_status tresp = Returns tt ->
  resp_json tresp = Returns (JDict d) ->
  d !! "token" = Some v ->
  exists req,
    last (trace (snd run)) = Some (EvHttp req)
    /\ req_method req = "HEAD"
    /\ req_url req
       = "https://" ++ ImageReference.registry ref ++ "/v2/"
           ++ ImageReference.repository ref ++ "/manifests/"
           ++ ImageReference.tag ref
    /\ req_headers req !! "Accept" = Some accept_header
    /\ req_headers req !! "Authorization"
       = if py_truthy v then Some ("Bearer " ++ py_str v) else None.
Proof.
  intros run Href Hhub Htok Hstatus Hjson Hv. subst run.
  destruct st as [socks nfd creads rreads tr].
  unfold _check_image_manifest_sync. rewrite Href.
  unfold token_request in Htok.
  run_probe. rewrite Hhub. run_probe. rewrite Htok.
  run_probe. rewrite Hstatus. run_probe. rewrite Hjson. run_probe.
  unfold json_get. rewrite Hv. cbn [default from_option id].
  exists (head_request
            (manifest_url (ImageReference.registry ref)
               (ImageReference.repository ref) (ImageReference.tag ref))
            (manifest_headers v) timeout).
  split.
  - manifest_cases; cbn [trace]; apply last_snoc.
  - split; [reflexivity|]. split; [reflexivity|].
    unfold head_request, manifest_headers. cbn [req_headers].
    destruct (py_truthy v).
    + split; [|apply lookup_insert_eq].
      rewrite lookup_insert_ne by discriminate. apply lookup_singleton_eq.
    + split; [apply lookup_singleton_eq|].
      apply lookup_singleton_ne. discriminate.
Qed.

Lemma manifest_probe_bearer_token_example :
  exists req,
    last (trace (snd (_check_image_manifest_sync "nginx" None 30
                        (Samples.registry_world
                           (Returns (Samples.response 200 "OK"
                                       (Samples.token_body [("token", PyStr "abc")])))
                           (Returns (Samples.response 200 "OK" Samples.no_json)))
                        Samples.fresh)))
    = Some (EvHttp req)
    /\ req_method req = "HEAD"
    /\ req_url req = "https://registry-1.docker.io/v2/library/nginx/manifests/latest"
    /\ req_headers req !! "Accept" = Some accept_header
    /\ req_headers req !! "Authorization" = Some "Bearer abc".
Proof.
  apply (manifest_probe_bearer_token "nginx" None 30
           (Samples.registry_world
              (Returns (Samples.response 200 "OK"
                          (Samples.token_body [("token", PyStr "abc")])))
              (Returns (Samples.response 200 "OK" Samples.no_json)))
           Samples.fresh
           {| ImageReference.registry := "registry-1.docker.io";
              ImageReference.repository := "library/nginx";
              ImageReference.tag := "latest" |}
           (Samples.response 200 "OK" (Samples.token_body [("token", PyStr "abc")]))
           (list_to_map [("token", PyStr "abc")]) (PyStr "abc")).
  - reflexivity.
  - reflexivity.
  - reflexivity.
  - reflexivity.
  - reflexivity.
  - vm_compute. reflexivity.
Defined.

(** X22.  A token stage that fails otherwise than by its HTTP status ends
    the call before the manifest request: when the token request raises,
    when the body of the token response does not decode, and when it decodes
    to a value that is not an object (whose [get] is an [AttributeError]),
    the result is a failure with a null status code, the exception text as
    message, and the error prefixed by "HTTP Request Error: " for a request
    exception and by "An unexpected error occurred: " otherwise. *)
Theorem manifest_probe_token_failure
    (image_name : string) (registry : option string) (timeout : Q)
    (env : Env) (st : State) (ref : ImageReference.t) (e : exc) :
  let run := _check_image_manifest_sync image_name registry timeout env st in
  _parse_image_name image_name registry = Returns ref ->
  is_docker_hub_or_mirror (ImageReference.registry ref) = true ->
  (http env (token_request ref timeout) = Raises e
   \/ exists tresp,
        http env (token_request ref timeout) = Returns tresp
        /\ raise_for_status tresp = Returns tt
        /\ (resp_json tresp = Raises e
            \/ exists t,
                 resp_json tresp = Returns (JNotDict t)
                 /\ e = Exc AttributeError
                          ("'" ++ t ++ "' object has no attribute 'get'"))) ->
  issued st (snd run) = [EvHttp (token_request ref timeout)]
  /\ exists r,
       fst run = Returns (Some r)
       /\ ManifestResult.success r = false
       /\ ManifestResult.status_code r = None
       /\ ManifestResult.message r = exc_str e
       /\ ManifestResult.error r
          = Some ((if is_RequestException e then "HTTP Request Error: "
                   else "An unexpected error occurred: ") ++ exc_str e).
Proof.
  intros run Href Hhub Hfail. subst run.
  destruct st as [socks nfd creads rreads tr].
  unfold _check_image_manifest_sync, token_request in *. rewrite Href.
  run_probe. rewrite Hhub. run_probe.
  destruct Hfail as [Htok | (tresp & Htok & Hstatus & [Hjson | (t & Hjson & ->)])];
    rewrite Htok; run_probe; rewrite ?Hstatus; run_probe; rewrite ?Hjson;
    run_probe; cbn [json_get is_RequestException exc_cls]; run_probe.
  1, 2: destruct (is_RequestException e); run_probe.
  all: split; [issued_events; reflexivity|].
  all: eexists; (split; [reflexivity|]); cbn; auto.
Qed.

(** The token endpoint answering with a JSON list. *)
Lemma manifest_probe_token_failure_example :
  let env := Samples.registry_world
               (Returns (Samples.response 200 "OK" (Returns (JNotDict "list"))))
               (Returns (Samples.response 200 "OK" Samples.no_json)) in
  let ref := {| ImageReference.registry := "registry-1.docker.io";
                ImageReference.repository := "library/nginx";
                ImageReference.tag := "latest" |} in
  let e := Exc AttributeError "'list' object has no attribute 'get'" in
  let run := _check_image_manifest_sync "nginx" None 30 env Samples.fresh in
  issued Samples.fresh (snd run) = [EvHttp (token_request ref 30)]
  /\ exists r,
       fst run = Returns (Some r)
       /\ ManifestResult.success r = false
       /\ ManifestResult.status_code r = None
       /\ ManifestResult.message r = exc_str e
       /\ ManifestResult.error r
          = Some ((if is_RequestException e then "HTTP Request Error: "
                   else "An unexpected error occurred: ") ++ exc_str e).
Proof.
  apply (manifest_probe_token_failure "nginx" None 30).
  - reflexivity.
  - reflexivity.
  - right. eexists. split; [reflexivity|]. split; [reflexivity|].
    right. exists "list". split; reflexivity.
Defined.

(** ** Timings *)

Lemma round_half_even_nonneg (q : Q) : (0 <= q)%Q -> (0 <= round_half_even q)%Z.
Proof.
  intros H. unfold round_half_even.
  assert (0 <= Qfloor q)%Z by (change 0%Z with (Qfloor 0); now apply Qfloor_resp_le).
  destruct (Qcompare _ _); [destruct (Z.even _)| |]; lia.
Qed.

Lemma round2_elapsed_nonneg (a b : Q) : (a <= b)%Q -> (0 <= round2 ((b - a) * 1000))%Q.
Proof.
  intros H. unfold round2.
  assert (0 <= (b - a) * 1000 * 100)%Q as H0.
  { apply Qmult_le_0_compat; [apply Qmult_le_0_compat|]; try discriminate.
    unfold Qminus. rewrite <- Qle_minus_iff. exact H. }
  apply round_half_even_nonneg in H0.
  unfold Qle. cbn. lia.
Qed.

(** X23.  With a clock that never steps back, no probe reports a negative
    response time: the timing of every result of [check_port],
    [check_http_response], [check_dns] and [_check_image_manifest_sync] is
    null or at least 0. *)
Theorem response_times_nonnegative (env : Env) (st : State) :
  (forall i j, i <= j -> (clock env i <= clock env j)%Q) ->
  (forall input r t,
     fst (check_port input env st) = Returns r ->
     PortResult.response_time_ms r = Some t -> (0 <= t)%Q)
  /\ (forall input r t,
        fst (check_http_response input env st) = Returns r ->
        HttpResult.response_time_ms r = Some t -> (0 <= t)%Q)
  /\ (forall input r t,
        fst (check_dns input env st) = Returns r ->
        DnsResult.response_time_ms r = Some t -> (0 <= t)%Q)
  /\ (forall image_name registry timeout r,
        fst (_check_image_manifest_sync image_name registry timeout env st)
          = Returns (Some r) ->
        (0 <= ManifestResult.response_time_ms r)%Q).
Proof.
  intros Hclock. destruct st as [socks nfd creads rreads tr].
  assert (H1 : (clock env creads <= clock env (S creads))%Q) by (apply Hclock; lia).
  assert (H2 : (clock env creads <= clock env (S (S creads)))%Q) by (apply Hclock; lia).
  split; [|split; [|split]].
  - intros input r t. port_cases.
    all: intros [= <-]; cbn; intros [= <-].
    now apply round2_elapsed_nonneg.
  - intros input r t. unfold check_http_response. run_probe.
    destruct (http env _); run_probe.
    all: intros [= <-]; cbn; intros [= <-].
    now apply round2_elapsed_nonneg.
  - intros input r t. unfold check_dns. dns_cases.
    all: intros [= <-]; cbn; intros [= <-].
    all: now apply round2_elapsed_nonneg.
  - intros image_name registry timeout r.
    destruct (parse_image_name_returns image_name registry) as [ref Href].
    unfold _check_image_manifest_sync. rewrite Href. manifest_cases.
    all: intros [= <-]; cbn.
    all: now apply round2_elapsed_nonneg.
Qed.

(** The refused connection on port 8080, timed by a clock that advances one
    second at each reading. *)
Lemma response_times_nonnegative_example :
  (forall i j, i <= j ->
     (clock MoreSamples.refusing i <= clock MoreSamples.refusing j)%Q)
  /\ (0 <= round2 ((1 - 0) * 1000))%Q.
Proof.
  assert (Hclock : forall i j, i <= j ->
            (clock MoreSamples.refusing i <= clock MoreSamples.refusing j)%Q).
  { intros i j Hij. unfold Qle. cbn. lia. }
  split; [exact Hclock|].
  destruct (response_times_nonnegative MoreSamples.refusing Samples.fresh Hclock)
    as [Hport _].
  refine (Hport {| PortCheckInput.host := "192.0.2.1";
                   PortCheckInput.port := 8080;
                   PortCheckInput.timeout := 3 |} _ _ _ _);
    reflexivity.
Defined.
